(** * The bucketed asset grid store of the web client, and the upload job dispatch

    Shallow embedding of [web/src/lib/stores/assets.store.ts] (the Svelte
    store behind the virtualised timeline) and of the behaviour that
    [server/libs/domain/src/asset/asset.service.spec.ts] tests.

    Conventions of the embedding.
    - JavaScript arrays are lists; an index is a [Z], because
      [Array.prototype.findIndex] answers [-1] when nothing matches and the
      code uses that answer as an index without looking at it.
    - Heights are pixel counts.  They are integers far below 2^53, where the
      arithmetic of JavaScript numbers is exact, so they are modelled in [Z].
    - An [AbortController] is an object with an identity and one bit of
      state.  It is modelled by a [Token] (its identity); the store keeps the
      set of tokens on which [abort()] was called and an allocation counter
      for [new AbortController()].
    - A statement that throws is a [Throw] completion carrying the name of
      the error and the store as it is at that moment (mutations are done in
      place, so what was written before the throw stays written).
    - [getAssetsByBucket] is an async function with one [await].  It is cut
      at the [await]: [getAssetsByBucket_issue] runs up to the call of the
      fetch client, [getAssetsByBucket_resume] runs from the settlement of
      the promise to the end, [catch] block included. *)

From Stdlib Require Import ZArith Lia.
From stdpp Require Import base list strings gmap.

Open Scope Z_scope.

(** ** JavaScript array primitives *)

(** [arr.findIndex(p)]: index of the first element satisfying [p], else -1. *)
Fixpoint findIndex {A : Type} (p : A → bool) (l : list A) : Z :=
  match l with
  | [] => -1
  | x :: l' =>
      if p x then 0
      else let i := findIndex p l' in if i <? 0 then -1 else 1 + i
  end.

(** [arr[i]]: [undefined] (here [None]) outside [0 .. length-1]. *)
Definition at_index {A : Type} (l : list A) (i : Z) : option A :=
  if i <? 0 then None else l !! Z.to_nat i.

(** [arr.splice(start, 1)]: a negative [start] counts from the end, and the
    start position is clamped to [0 .. length]. *)
Definition splice1 {A : Type} (l : list A) (start : Z) : list A :=
  let len := Z.of_nat (length l) in
  let actualStart :=
    if start <? 0 then Z.max (len + start) 0 else Z.min start len in
  delete (Z.to_nat actualStart) l.

(** lodash [sumBy(arr, f)]. *)
Fixpoint sumBy {A : Type} (f : A → Z) (l : list A) : Z :=
  match l with
  | [] => 0
  | x :: l' => f x + sumBy f l'
  end.

(** lodash [flatMap(arr, f)] for an [f] that answers arrays. *)
Definition flatMap {A B : Type} (f : A → list B) (l : list A) : list B :=
  concat (f <$> l).

(** ** Data model *)

(** Identity of an [AbortController] object. *)
Definition Token := nat.

Module AssetResponseDto.
(** Modelled from the spec: the declaration of the item summary is in the
    generated API client; the store reads [id] and writes [isFavorite],
    the remaining fields travel untouched in [rest]. *)
Record t := mk { id : string; isFavorite : bool; rest : string }.

Definition set_isFavorite (v : bool) (a : t) : t :=
  {| id := id a; isFavorite := v; rest := rest a |}.
End AssetResponseDto.

Module AssetGridOptions.
(** Modelled from the spec: the declaration is in [$lib/models]; the store
    reads [size] and hands the whole record to the fetch client. *)
Record t := mk { size : string; filters : list (string * string) }.
End AssetGridOptions.

Module TimeBucketResponseDto.
Record t := mk { timeBucket : string; count : Z }.
End TimeBucketResponseDto.

Module AssetBucket.
Record t := mk {
  bucketDate : string;
  bucketHeight : Z;
  assets : list AssetResponseDto.t;
  cancelToken : Token
}.

Definition set_bucketHeight (h : Z) (b : t) : t :=
  {| bucketDate := bucketDate b; bucketHeight := h;
     assets := assets b; cancelToken := cancelToken b |}.
Definition set_assets (a : list AssetResponseDto.t) (b : t) : t :=
  {| bucketDate := bucketDate b; bucketHeight := bucketHeight b;
     assets := a; cancelToken := cancelToken b |}.
Definition set_cancelToken (c : Token) (b : t) : t :=
  {| bucketDate := bucketDate b; bucketHeight := bucketHeight b;
     assets := assets b; cancelToken := c |}.
End AssetBucket.

Module AssetGridState.
Record t := mk {
  initialized : bool;
  viewportHeight : Z;
  viewportWidth : Z;
  timelineHeight : Z;
  buckets : list AssetBucket.t;
  assets : list AssetResponseDto.t;
  options : AssetGridOptions.t
}.

Definition set_timelineHeight (h : Z) (s : t) : t :=
  {| initialized := initialized s; viewportHeight := viewportHeight s;
     viewportWidth := viewportWidth s; timelineHeight := h;
     buckets := buckets s; assets := assets s; options := options s |}.
Definition set_buckets (bs : list AssetBucket.t) (s : t) : t :=
  {| initialized := initialized s; viewportHeight := viewportHeight s;
     viewportWidth := viewportWidth s; timelineHeight := timelineHeight s;
     buckets := bs; assets := assets s; options := options s |}.
Definition set_assets (a : list AssetResponseDto.t) (s : t) : t :=
  {| initialized := initialized s; viewportHeight := viewportHeight s;
     viewportWidth := viewportWidth s; timelineHeight := timelineHeight s;
     buckets := buckets s; assets := a; options := options s |}.

(** Modelled from the spec: [new AssetGridState()], whose class is declared
    in [$lib/models/asset-grid-state]: "an uninitialized one
    (initialized = false, no buckets, no items)". *)
Definition new : t :=
  {| initialized := false; viewportHeight := 0; viewportWidth := 0;
     timelineHeight := 0; buckets := []; assets := [];
     options := AssetGridOptions.mk "" [] |}.
End AssetGridState.

(** One call of [api.timeBucketApi.getByTimeBucket]. *)
Record FetchCall := mkFetchCall {
  fetch_size : string;
  fetch_bucket : string;
  fetch_options : AssetGridOptions.t;
  fetch_signal : option Token
}.

(** How the awaited promise settles: with the [data] of the response, or
    rejected with an error of the given [name]. *)
Inductive FetchOutcome :=
| Resolved (data : list AssetResponseDto.t)
| Rejected (name : string).

(** Everything the module [assets.store.ts] can read or write. *)
Record Store := mkStore {
  grid : AssetGridState.t;       (* value of [assetGridState] *)
  aborted : gset Token;          (* controllers whose [abort()] was called *)
  nextToken : Token;             (* next [new AbortController()] *)
  fetchLog : list FetchCall;     (* calls made to the fetch client, oldest first *)
  pending : list FetchCall;      (* calls of getAssetsByBucket suspended at the await *)
  console : list string          (* lines written by [console.error] *)
}.

Definition with_grid (g : AssetGridState.t) (s : Store) : Store :=
  {| grid := g; aborted := aborted s; nextToken := nextToken s;
     fetchLog := fetchLog s; pending := pending s; console := console s |}.
Definition with_pending (p : list FetchCall) (s : Store) : Store :=
  {| grid := grid s; aborted := aborted s; nextToken := nextToken s;
     fetchLog := fetchLog s; pending := p; console := console s |}.
Definition abort (tokens : gset Token) (s : Store) : Store :=
  {| grid := grid s; aborted := tokens ∪ aborted s; nextToken := nextToken s;
     fetchLog := fetchLog s; pending := pending s; console := console s |}.
Definition console_error (line : string) (s : Store) : Store :=
  {| grid := grid s; aborted := aborted s; nextToken := nextToken s;
     fetchLog := fetchLog s; pending := pending s;
     console := console s ++ [line] |}.

(** The store when the module has just been loaded. *)
Definition initial_store : Store :=
  {| grid := AssetGridState.new; aborted := ∅; nextToken := 0%nat;
     fetchLog := []; pending := []; console := [] |}.

(** How a call ends. *)
Inductive Completion (A : Type) :=
| Normal (a : A)
| Throw (name : string) (a : A).
Arguments Normal {A} a.
Arguments Throw {A} name a.

Definition after {A : Type} (c : Completion A) : A :=
  match c with Normal a => a | Throw _ a => a end.

Definition is_normal {A : Type} (c : Completion A) : bool :=
  match c with Normal _ => true | Throw _ _ => false end.

(** [assetGridState.update(fn)]: [fn] works in place on the state object, so
    the object keeps what [fn] wrote even if [fn] throws. *)
Definition update (fn : AssetGridState.t → Completion AssetGridState.t)
    (s : Store) : Completion Store :=
  match fn (grid s) with
  | Normal g => Normal (with_grid g s)
  | Throw e g => Throw e (with_grid g s)
  end.

Definition hasDate (bucket : string) (b : AssetBucket.t) : bool :=
  bool_decide (AssetBucket.bucketDate b = bucket).
Definition hasId (assetId : string) (a : AssetResponseDto.t) : bool :=
  bool_decide (AssetResponseDto.id a = assetId).
Definition holdsAsset (assetId : string) (b : AssetBucket.t) : bool :=
  existsb (hasId assetId) (AssetBucket.assets b).

Definition allAssets (bs : list AssetBucket.t) : list AssetResponseDto.t :=
  flatMap AssetBucket.assets bs.

(** ** Operations of the store *)

Section AssetStore.

(** [calculateViewportHeightByNumberOfAsset(count, viewportWidth)] of
    [$lib/utils/viewport-utils], a pure function whose body is not part of
    the store. *)
Variable calculateViewportHeightByNumberOfAsset : Z → Z → Z.

(** The height estimate of a layout entry. *)
Definition estimateOf (viewportWidth : Z) (tb : TimeBucketResponseDto.t) : Z :=
  calculateViewportHeightByNumberOfAsset (TimeBucketResponseDto.count tb) viewportWidth.

(** [reset]. *)
Definition reset (s : Store) : Completion Store :=
  let tokens : gset Token :=
    list_to_set (AssetBucket.cancelToken <$> AssetGridState.buckets (grid s)) in
  Normal (with_grid AssetGridState.new (abort tokens s)).

(** The [map] callback of [setInitialState]; the [i]-th bucket gets the
    [i]-th controller allocated by the call. *)
Definition initialBucket (viewportWidth : Z) (first : Token) (i : nat)
    (tb : TimeBucketResponseDto.t) : AssetBucket.t :=
  {| AssetBucket.bucketDate := TimeBucketResponseDto.timeBucket tb;
     AssetBucket.bucketHeight :=
       calculateViewportHeightByNumberOfAsset
         (TimeBucketResponseDto.count tb) viewportWidth;
     AssetBucket.assets := [];
     AssetBucket.cancelToken := (first + i)%nat |}.

(** [setInitialState]: a [set] of the new state object with
    [timelineHeight: 0], then an [update] that sums the bucket heights. *)
Definition setInitialState (viewportHeight viewportWidth : Z)
    (timeBuckets : list TimeBucketResponseDto.t)
    (options : AssetGridOptions.t) (s : Store) : Completion Store :=
  let state0 :=
    {| AssetGridState.initialized := true;
       AssetGridState.viewportHeight := viewportHeight;
       AssetGridState.viewportWidth := viewportWidth;
       AssetGridState.timelineHeight := 0;
       AssetGridState.buckets :=
         imap (initialBucket viewportWidth (nextToken s)) timeBuckets;
       AssetGridState.assets := [];
       AssetGridState.options := options |} in
  let s1 :=
    {| grid := state0; aborted := aborted s;
       nextToken := (nextToken s + length timeBuckets)%nat;
       fetchLog := fetchLog s; pending := pending s; console := console s |} in
  update (λ state,
    Normal (AssetGridState.set_timelineHeight
              (sumBy AssetBucket.bucketHeight (AssetGridState.buckets state))
              state)) s1.

(** [getAssetsByBucket], from its entry to the [await]: [None] when the
    function returns at once, [Some call] when it calls the fetch client. *)
Definition getAssetsByBucket_issue (bucket : string) (s : Store)
    : Store * option FetchCall :=
  let currentBucketData :=
    List.find (hasDate bucket) (AssetGridState.buckets (grid s)) in
  let loaded :=
    match currentBucketData with
    | Some b => (0 <? length (AssetBucket.assets b))%nat
    | None => false
    end in
  if loaded then (s, None)
  else
    let call :=
      {| fetch_size := AssetGridOptions.size (AssetGridState.options (grid s));
         fetch_bucket := bucket;
         fetch_options := AssetGridState.options (grid s);
         fetch_signal := AssetBucket.cancelToken <$> currentBucketData |} in
    ({| grid := grid s; aborted := aborted s; nextToken := nextToken s;
        fetchLog := fetchLog s ++ [call]; pending := pending s;
        console := console s |}, Some call).

(** The [update] callback that stores a response. *)
Definition storeResponse (bucket : string) (assets : list AssetResponseDto.t)
    (state : AssetGridState.t) : Completion AssetGridState.t :=
  let bucketIndex := findIndex (hasDate bucket) (AssetGridState.buckets state) in
  match at_index (AssetGridState.buckets state) bucketIndex with
  | None => Throw "TypeError" state
  | Some b =>
      let bs := <[Z.to_nat bucketIndex := AssetBucket.set_assets assets b]>
                  (AssetGridState.buckets state) in
      Normal (AssetGridState.set_assets (allAssets bs)
                (AssetGridState.set_buckets bs state))
  end.

(** The [catch] block of [getAssetsByBucket]. *)
Definition getAssetsByBucket_catch (bucket : string) (c : Completion Store)
    : Completion Store :=
  match c with
  | Normal s => Normal s
  | Throw name s =>
      if bool_decide (name = "CanceledError") then Normal s
      else Normal (console_error name
                     (console_error ("Failed to get asset for bucket " +:+ bucket) s))
  end.

(** [getAssetsByBucket], from the settlement of the awaited promise on. *)
Definition getAssetsByBucket_resume (bucket : string) (o : FetchOutcome)
    (s : Store) : Completion Store :=
  getAssetsByBucket_catch bucket
    match o with
    | Resolved assets => update (storeResponse bucket assets) s
    | Rejected name => Throw name s
    end.

(** [getAssetsByBucket] run without anything else happening during the
    [await]; [client] is the fetch client. *)
Definition getAssetsByBucket (client : FetchCall → FetchOutcome)
    (bucket : string) (s : Store) : Completion Store :=
  match getAssetsByBucket_issue bucket s with
  | (s1, None) => Normal s1
  | (s1, Some call) => getAssetsByBucket_resume bucket (client call) s1
  end.

(** [_removeBucket]; its [splice] is given the answer of [findIndex] as it
    comes. *)
Definition _removeBucket (bucketDate : string) (state : AssetGridState.t)
    : AssetGridState.t :=
  let bucketIndex := findIndex (hasDate bucketDate) (AssetGridState.buckets state) in
  let bs := splice1 (AssetGridState.buckets state) bucketIndex in
  AssetGridState.set_assets (allAssets bs) (AssetGridState.set_buckets bs state).

(** The [update] callback of [removeAsset]. *)
Definition removeAsset_fn (assetId : string) (state : AssetGridState.t)
    : Completion AssetGridState.t :=
  let bucketIndex := findIndex (holdsAsset assetId) (AssetGridState.buckets state) in
  match at_index (AssetGridState.buckets state) bucketIndex with
  | None => Throw "TypeError" state
  | Some b =>
      let assetIndex := findIndex (hasId assetId) (AssetBucket.assets b) in
      let b' := AssetBucket.set_assets (splice1 (AssetBucket.assets b) assetIndex) b in
      let state1 :=
        AssetGridState.set_buckets
          (<[Z.to_nat bucketIndex := b']> (AssetGridState.buckets state)) state in
      let state2 :=
        if (length (AssetBucket.assets b') =? 0)%nat
        then _removeBucket (AssetBucket.bucketDate b') state1
        else state1 in
      Normal (AssetGridState.set_assets
                (allAssets (AssetGridState.buckets state2)) state2)
  end.

Definition removeAsset (assetId : string) (s : Store) : Completion Store :=
  update (removeAsset_fn assetId) s.

(** The [update] callback of [updateBucketHeight]. *)
Definition updateBucketHeight_fn (bucket : string) (actualBucketHeight : Z)
    (state : AssetGridState.t) : Completion AssetGridState.t :=
  let bucketIndex := findIndex (hasDate bucket) (AssetGridState.buckets state) in
  match at_index (AssetGridState.buckets state) bucketIndex with
  | None => Throw "TypeError" state
  | Some b =>
      let estimateBucketHeight := AssetBucket.bucketHeight b in
      let timelineHeight :=
        if actualBucketHeight >=? estimateBucketHeight
        then AssetGridState.timelineHeight state
             + (actualBucketHeight - estimateBucketHeight)
        else AssetGridState.timelineHeight state
             - (estimateBucketHeight - actualBucketHeight) in
      Normal (AssetGridState.set_buckets
                (<[Z.to_nat bucketIndex :=
                     AssetBucket.set_bucketHeight actualBucketHeight b]>
                   (AssetGridState.buckets state))
                (AssetGridState.set_timelineHeight timelineHeight state))
  end.

Definition updateBucketHeight (bucket : string) (actualBucketHeight : Z)
    (s : Store) : Completion Store :=
  update (updateBucketHeight_fn bucket actualBucketHeight) s.

(** [cancelBucketRequest]: the controller handed in is aborted, then the
    bucket gets a new one. *)
Definition cancelBucketRequest (token : Token) (bucketDate : string)
    (s : Store) : Completion Store :=
  let s1 := abort {[ token ]} s in
  let bs := AssetGridState.buckets (grid s1) in
  let bucketIndex := findIndex (hasDate bucketDate) bs in
  match at_index bs bucketIndex with
  | None => Throw "TypeError" s1
  | Some b =>
      Normal
        {| grid :=
             AssetGridState.set_buckets
               (<[Z.to_nat bucketIndex :=
                    AssetBucket.set_cancelToken (nextToken s1) b]> bs)
               (grid s1);
           aborted := aborted s1; nextToken := S (nextToken s1);
           fetchLog := fetchLog s1; pending := pending s1;
           console := console s1 |}
  end.

(** The [update] callback of [updateAsset]. *)
Definition updateAsset_fn (assetId : string) (isFavorite : bool)
    (state : AssetGridState.t) : Completion AssetGridState.t :=
  let bucketIndex := findIndex (holdsAsset assetId) (AssetGridState.buckets state) in
  match at_index (AssetGridState.buckets state) bucketIndex with
  | None => Throw "TypeError" state
  | Some b =>
      let assetIndex := findIndex (hasId assetId) (AssetBucket.assets b) in
      match at_index (AssetBucket.assets b) assetIndex with
      | None => Throw "TypeError" state
      | Some a =>
          let b' :=
            AssetBucket.set_assets
              (<[Z.to_nat assetIndex := AssetResponseDto.set_isFavorite isFavorite a]>
                 (AssetBucket.assets b)) b in
          let bs := <[Z.to_nat bucketIndex := b']> (AssetGridState.buckets state) in
          Normal (AssetGridState.set_assets (allAssets bs)
                    (AssetGridState.set_buckets bs state))
      end
  end.

Definition updateAsset (assetId : string) (isFavorite : bool) (s : Store)
    : Completion Store :=
  update (updateAsset_fn assetId isFavorite) s.

(** ** Executions

    What can happen to the store: a call of one of its seven functions, or
    the settlement of a fetch that a call of [getAssetsByBucket] awaits.
    Calls run to completion one at a time; only the [await] lets other
    events in between. *)
Inductive Event :=
| CallReset
| CallSetInitialState (viewportHeight viewportWidth : Z)
    (timeBuckets : list TimeBucketResponseDto.t) (options : AssetGridOptions.t)
| CallGetAssetsByBucket (bucket : string)
| Settle (n : nat) (o : FetchOutcome)
| CallRemoveAsset (assetId : string)
| CallUpdateBucketHeight (bucket : string) (actualBucketHeight : Z)
| CallCancelBucketRequest (token : Token) (bucketDate : string)
| CallUpdateAsset (assetId : string) (isFavorite : bool).

Definition step (e : Event) (s : Store) : Completion Store :=
  match e with
  | CallReset => reset s
  | CallSetInitialState vh vw tbs opts => setInitialState vh vw tbs opts s
  | CallGetAssetsByBucket bucket =>
      match getAssetsByBucket_issue bucket s with
      | (s1, None) => Normal s1
      | (s1, Some call) => Normal (with_pending (pending s1 ++ [call]) s1)
      end
  | Settle n o =>
      match pending s !! n with
      | None => Normal s
      | Some call =>
          getAssetsByBucket_resume (fetch_bucket call) o
            (with_pending (delete n (pending s)) s)
      end
  | CallRemoveAsset assetId => removeAsset assetId s
  | CallUpdateBucketHeight bucket h => updateBucketHeight bucket h s
  | CallCancelBucketRequest token bucketDate => cancelBucketRequest token bucketDate s
  | CallUpdateAsset assetId isFavorite => updateAsset assetId isFavorite s
  end.

(** The store after a sequence of events; an exception ends the call that
    threw, the store lives on. *)
Definition run (events : list Event) (s : Store) : Store :=
  foldl (λ s e, after (step e s)) s events.

End AssetStore.

(** ** Invariants of the grid state *)

(** I1: bucket keys are unique. *)
Definition I1 (g : AssetGridState.t) : Prop :=
  NoDup (AssetBucket.bucketDate <$> AssetGridState.buckets g).

(** I2: the timeline height is the sum of the bucket heights. *)
Definition I2 (g : AssetGridState.t) : Prop :=
  AssetGridState.timelineHeight g
  = sumBy AssetBucket.bucketHeight (AssetGridState.buckets g).

(** The fetch behind a suspended call has been superseded: the controller
    whose signal it was given has been aborted. *)
Definition superseded (call : FetchCall) (s : Store) : Prop :=
  ∃ token, fetch_signal call = Some token ∧ token ∈ aborted s.

(** Every bucket that has items is the first bucket with its key. *)
Definition loadedFirst (bs : list AssetBucket.t) : Prop :=
  ∀ i b, bs !! i = Some b → AssetBucket.assets b ≠ [] →
         findIndex (hasDate (AssetBucket.bucketDate b)) bs = Z.of_nat i.

(** By how much the timeline height exceeds the sum of the bucket heights. *)
Definition excess (g : AssetGridState.t) : Z :=
  AssetGridState.timelineHeight g
  - sumBy AssetBucket.bucketHeight (AssetGridState.buckets g).

(** Some bucket holds an item with this identifier. *)
Definition owned (assetId : string) (g : AssetGridState.t) : Prop :=
  ∃ b a, b ∈ AssetGridState.buckets g ∧ a ∈ AssetBucket.assets b ∧
         AssetResponseDto.id a = assetId.

(** I3: the flattened list is the concatenation of the buckets' lists, in
    bucket order. *)
Definition I3 (g : AssetGridState.t) : Prop :=
  AssetGridState.assets g = allAssets (AssetGridState.buckets g).

(** ** The derived store, and the discipline of the controllers *)

(** [assetGridEmpty], the store derived from [assetGridState]. *)
Definition assetGridEmpty (state : AssetGridState.t) : bool :=
  AssetGridState.initialized state
  && (length (AssetGridState.buckets state) =? 0)%nat.

(** The controllers the buckets hold, in bucket order. *)
Definition controllers (s : Store) : list Token :=
  AssetBucket.cancelToken <$> AssetGridState.buckets (grid s).

(** No two buckets share a controller, no bucket holds an aborted one, and
    every controller met so far was made before the next one to come. *)
Definition controllersLive (s : Store) : Prop :=
  NoDup (controllers s) ∧
  (∀ t, t ∈ controllers s → (t < nextToken s)%nat ∧ t ∉ aborted s) ∧
  (∀ t, t ∈ aborted s → (t < nextToken s)%nat).

(** A call of [cancelBucketRequest] is given the controller of the bucket it
    names, the way [cancelBucketRequest(bucket.cancelToken, bucket.bucketDate)]
    does; the other calls take no controller. *)
Definition ownController (e : Event) (s : Store) : bool :=
  match e with
  | CallCancelBucketRequest token bucketDate =>
      match List.find (hasDate bucketDate) (AssetGridState.buckets (grid s)) with
      | Some b => bool_decide (AssetBucket.cancelToken b = token)
      | None => false
      end
  | _ => true
  end.

(** Every [cancelBucketRequest] of the execution is given the controller of
    the bucket it names. *)
Fixpoint disciplined (calc : Z → Z → Z) (events : list Event) (s : Store) : bool :=
  match events with
  | [] => true
  | e :: rest => ownController e s && disciplined calc rest (after (step calc e s))
  end.

(** The call [getAssetsByBucket(bucket)] makes of the fetch client in the
    store [s], and the store once the call is made. *)
Definition callFor (bucket : string) (s : Store) : FetchCall :=
  {| fetch_size := AssetGridOptions.size (AssetGridState.options (grid s));
     fetch_bucket := bucket;
     fetch_options := AssetGridState.options (grid s);
     fetch_signal :=
       AssetBucket.cancelToken
       <$> List.find (hasDate bucket) (AssetGridState.buckets (grid s)) |}.

Definition logged (call : FetchCall) (s : Store) : Store :=
  {| grid := grid s; aborted := aborted s; nextToken := nextToken s;
     fetchLog := fetchLog s ++ [call]; pending := pending s;
     console := console s |}.

(** ** The upload pipeline of the server

    [asset.service.spec.ts] drives [AssetService] against mocked
    repositories and looks at the calls the mocks received. *)

Module AssetService.

Inductive AssetType := IMAGE | VIDEO.

Inductive JobName :=
| GENERATE_JPEG_THUMBNAIL
| VIDEO_CONVERSION
| EXTRACT_VIDEO_METADATA
| EXIF_EXTRACTION
| SEARCH_INDEX_ASSET.

Record AssetEntity := mkAsset { id : string; type : AssetType }.

(** The payload of a job: [{ asset }] for the upload jobs, [{ ids }] for the
    search index. *)
Inductive JobData :=
| OfAsset (asset : AssetEntity)
| OfIds (ids : list string).

Record JobItem := mkJob { name : JobName; data : JobData }.

(** What the mocked repositories have been called with, oldest call first. *)
Record Mocks := mkMocks {
  saveCalls : list AssetEntity;     (* [assetMock.save.mock.calls] *)
  queueCalls : list JobItem         (* [jobMock.queue.mock.calls] *)
}.

Definition fresh : Mocks := {| saveCalls := []; queueCalls := [] |}.

(** [jobRepository.queue(item)]. *)
Definition queue (item : JobItem) (m : Mocks) : Mocks :=
  {| saveCalls := saveCalls m; queueCalls := queueCalls m ++ [item] |}.

(** Modelled from the spec: [AssetService.handleAssetUpload], whose source
    file is not among the sources (only its test is): "always enqueue a
    thumbnail-generation job; if the item is a video, additionally enqueue a
    transcode job and a metadata-extraction job, in that order; if the item
    is an image, additionally enqueue a metadata(EXIF)-extraction job". *)
Definition handleAssetUpload (asset : AssetEntity) (m : Mocks) : Mocks :=
  let m1 := queue (mkJob GENERATE_JPEG_THUMBNAIL (OfAsset asset)) m in
  match type asset with
  | VIDEO =>
      queue (mkJob EXTRACT_VIDEO_METADATA (OfAsset asset))
        (queue (mkJob VIDEO_CONVERSION (OfAsset asset)) m1)
  | IMAGE => queue (mkJob EXIF_EXTRACTION (OfAsset asset)) m1
  end.

(** Modelled from the spec: [AssetService.save], whose source file is not
    among the sources: "on explicit save/update of an item, enqueue a
    search-index-update job keyed by the item's identifier".  The call of
    the asset repository is the one the test expects. *)
Definition save (asset : AssetEntity) (m : Mocks) : Mocks :=
  queue (mkJob SEARCH_INDEX_ASSET (OfIds [id asset]))
    {| saveCalls := saveCalls m ++ [asset]; queueCalls := queueCalls m |}.

End AssetService.

(** ** Inputs of the scenarios *)

(** A height estimator to run the scenarios with: 18 pixels an item, so
    that five items are estimated at 90 pixels. *)
Definition flatEstimate (count viewportWidth : Z) : Z := 18 * count.

Definition twoMonths : list TimeBucketResponseDto.t :=
  [TimeBucketResponseDto.mk "2024-01" 10; TimeBucketResponseDto.mk "2024-02" 5].

Definition sameMonthTwice : list TimeBucketResponseDto.t :=
  [TimeBucketResponseDto.mk "2024-01" 10; TimeBucketResponseDto.mk "2024-01" 5].

Definition byMonth : AssetGridOptions.t := AssetGridOptions.mk "MONTH" [].

Definition photo (id : string) : AssetResponseDto.t :=
  AssetResponseDto.mk id false "".

(** Scenario A: the store after
    [setInitialState(800, 400, [("2024-01", 10), ("2024-02", 5)], {})]. *)
Definition scenarioA : Store :=
  run flatEstimate [CallSetInitialState 800 400 twoMonths byMonth] initial_store.

Definition january : list AssetResponseDto.t :=
  photo <$> ["p01"; "p02"; "p03"; "p04"; "p05"; "p06"; "p07"; "p08"; "p09"; "p10"].

(** Scenario B: after scenario A, [getAssetsByBucket("2024-01")] is called
    and its fetch resolves with ten items. *)
Definition scenarioB : Store :=
  run flatEstimate
    [CallGetAssetsByBucket "2024-01"; Settle 0 (Resolved january)] scenarioA.

(** Scenario E: after scenario A, [getAssetsByBucket("2024-01")] is called
    and, while its fetch is under way, [cancelBucketRequest] is called with
    the controller of that bucket. *)
Definition scenarioE : Store :=
  run flatEstimate
    [CallGetAssetsByBucket "2024-01"; CallCancelBucketRequest 0%nat "2024-01"]
    scenarioA.

(** A one-item layout loaded in full: both buckets of scenario A hold one
    item each. *)
Definition oneItemEach : Store :=
  run flatEstimate
    [CallGetAssetsByBucket "2024-01"; Settle 0 (Resolved [photo "p01"]);
     CallGetAssetsByBucket "2024-02"; Settle 0 (Resolved [photo "q01"])]
    scenarioA.

(** The store of [oneItemEach] once the item of "2024-01" has been removed,
    and its bucket with it. *)
Definition oneBucketGone : Store :=
  run flatEstimate [CallRemoveAsset "p01"] oneItemEach.

(** A grid state that no sequence of calls produces: two buckets share the
    key "2024-01" and it is the second that has an item. *)
Definition shadowedBucket : Store :=
  with_grid
    {| AssetGridState.initialized := true;
       AssetGridState.viewportHeight := 800;
       AssetGridState.viewportWidth := 400;
       AssetGridState.timelineHeight := 30;
       AssetGridState.buckets :=
         [AssetBucket.mk "2024-01" 10 [] 0%nat;
          AssetBucket.mk "2024-01" 20 [photo "p01"] 1%nat];
       AssetGridState.assets := [photo "p01"];
       AssetGridState.options := byMonth |}
    initial_store.

(** ** Facts about the array primitives *)

(** Case analysis on every [<?] of the goal, then linear arithmetic. *)
Ltac ltb_cases :=
  repeat match goal with
         | |- context [?a <? ?b] => destruct (Z.ltb_spec a b)
         end;
  lia.

Lemma findIndex_range {A : Type} (p : A → bool) (l : list A) :
  -1 ≤ findIndex p l < Z.of_nat (length l).
Proof.
  induction l as [|x l IH]; simpl; [lia|].
  destruct (p x); [lia|].
  destruct (Z.ltb_spec (findIndex p l) 0); lia.
Qed.

Lemma findIndex_absent {A : Type} (p : A → bool) (l : list A) :
  findIndex p l = -1 ↔ Forall (λ x, p x = false) l.
Proof.
  induction l as [|x l IH]; simpl.
  - split; [constructor | reflexivity].
  - pose proof (findIndex_range p l) as Hr.
    destruct (p x) eqn:Hx.
    + split; [lia | intros H; inversion H; congruence].
    + destruct (Z.ltb_spec (findIndex p l) 0) as [Hlt|Hge].
      * split; [|reflexivity]. intros _. constructor; [done|].
        apply IH. lia.
      * split; [lia|]. intros H. inversion H; subst.
        assert (findIndex p l = -1) by (by apply IH). lia.
Qed.

(** When [findIndex] answers an index, the element there satisfies the
    predicate and no earlier one does. *)
Lemma findIndex_first {A : Type} (p : A → bool) (l : list A) :
  0 ≤ findIndex p l →
  ∃ x, l !! Z.to_nat (findIndex p l) = Some x ∧ p x = true ∧
       ∀ j y, (j < Z.to_nat (findIndex p l))%nat → l !! j = Some y → p y = false.
Proof.
  induction l as [|x l IH]; simpl; [lia|].
  destruct (p x) eqn:Hx.
  - intros _. exists x. repeat split; [done|]. intros j y Hj. simpl in Hj. lia.
  - destruct (Z.ltb_spec (findIndex p l) 0) as [Hlt|Hge]; [lia|].
    intros _. destruct (IH Hge) as (y & Hy & Hpy & Hmin).
    exists y. replace (Z.to_nat (1 + findIndex p l)) with (S (Z.to_nat (findIndex p l))) by lia.
    repeat split; [done..|].
    intros [|j] z Hj Hz; simpl in Hz; [congruence|].
    apply (Hmin j); [lia|done].
Qed.

Lemma at_index_Some {A : Type} (l : list A) (i : Z) (x : A) :
  at_index l i = Some x ↔ 0 ≤ i ∧ l !! Z.to_nat i = Some x.
Proof.
  unfold at_index. destruct (Z.ltb_spec i 0) as [Hlt|Hge].
  - split; [done | lia].
  - split; [by intros | by intros [_ ?]].
Qed.

Lemma at_findIndex_None {A : Type} (p : A → bool) (l : list A) :
  at_index l (findIndex p l) = None ↔ Forall (λ x, p x = false) l.
Proof.
  rewrite <- findIndex_absent. pose proof (findIndex_range p l) as Hr.
  unfold at_index. destruct (Z.ltb_spec (findIndex p l) 0) as [Hlt|Hge].
  - split; [lia | done].
  - destruct (findIndex_first p l Hge) as (x & Hx & _). rewrite Hx.
    split; [done | lia].
Qed.

Lemma at_findIndex_Some {A : Type} (p : A → bool) (l : list A) (x : A) :
  at_index l (findIndex p l) = Some x →
  0 ≤ findIndex p l ∧ l !! Z.to_nat (findIndex p l) = Some x ∧ p x = true ∧
  ∀ j y, (j < Z.to_nat (findIndex p l))%nat → l !! j = Some y → p y = false.
Proof.
  intros [Hge Hx]%at_index_Some.
  destruct (findIndex_first p l Hge) as (y & Hy & Hpy & Hmin).
  assert (y = x) by congruence. subst. done.
Qed.

(** [findIndex] finds something as soon as some element satisfies [p]. *)
Lemma at_findIndex_is_Some {A : Type} (p : A → bool) (l : list A) (x : A) :
  x ∈ l → p x = true → is_Some (at_index l (findIndex p l)).
Proof.
  intros Hin Hpx. destruct (at_index l (findIndex p l)) eqn:E; [done|].
  apply at_findIndex_None in E. rewrite Forall_forall in E.
  specialize (E x Hin). congruence.
Qed.

Lemma splice1_at {A : Type} (l : list A) (i : nat) :
  (i < length l)%nat → splice1 l (Z.of_nat i) = delete i l.
Proof.
  intros Hi. unfold splice1.
  destruct (Z.ltb_spec (Z.of_nat i) 0); [lia|].
  f_equal. lia.
Qed.

Lemma sumBy_delete {A : Type} (f : A → Z) (l : list A) (i : nat) (x : A) :
  l !! i = Some x → sumBy f (delete i l) = sumBy f l - f x.
Proof.
  revert i. induction l as [|y l IH]; intros [|i] H; simpl in *; try done.
  - injection H as ->. lia.
  - rewrite (IH i H). lia.
Qed.

Lemma sumBy_insert {A : Type} (f : A → Z) (l : list A) (i : nat) (x y : A) :
  l !! i = Some x → sumBy f (<[i:=y]> l) = sumBy f l - f x + f y.
Proof.
  revert i. induction l as [|z l IH]; intros [|i] H; simpl in *; try done.
  - injection H as ->. lia.
  - rewrite (IH i H). lia.
Qed.

(** Replacing a bucket by one with the same item list leaves the
    concatenation alone. *)
Lemma allAssets_insert_same (bs : list AssetBucket.t) (i : nat)
    (b b' : AssetBucket.t) :
  bs !! i = Some b → AssetBucket.assets b' = AssetBucket.assets b →
  allAssets (<[i:=b']> bs) = allAssets bs.
Proof.
  intros Hb Heq. unfold allAssets, flatMap. f_equal.
  rewrite list_fmap_insert, Heq. apply list_insert_id.
  by rewrite list_lookup_fmap, Hb.
Qed.

(** ** I3 along executions *)

Section FlattenedList.

Variable calc : Z → Z → Z.

Lemma allAssets_imap_empty {A : Type} (f : nat → A → AssetBucket.t) (l : list A) :
  (∀ i x, AssetBucket.assets (f i x) = []) → allAssets (imap f l) = [].
Proof.
  revert f. induction l as [|x l IH]; intros f Hf; [done|].
  unfold allAssets, flatMap in *. csimpl. rewrite Hf. simpl.
  apply IH. intros i y. apply Hf.
Qed.

Lemma I3_reset (s : Store) : I3 (grid (after (reset s))).
Proof. reflexivity. Qed.

Lemma I3_setInitialState vh vw tbs opts (s : Store) :
  I3 (grid (after (setInitialState calc vh vw tbs opts s))).
Proof.
  unfold I3. simpl. symmetry. by apply allAssets_imap_empty.
Qed.

Lemma grid_issue bucket (s : Store) :
  grid (getAssetsByBucket_issue bucket s).1 = grid s.
Proof.
  unfold getAssetsByBucket_issue.
  by destruct (List.find _ _) as [b|]; [destruct (_ <? _)%nat|].
Qed.

Lemma I3_storeResponse bucket data g :
  I3 g → I3 (after (storeResponse bucket data g)).
Proof.
  intros H. unfold storeResponse.
  by destruct (at_index _ _).
Qed.

Lemma I3_resume bucket o (s : Store) :
  I3 (grid s) → I3 (grid (after (getAssetsByBucket_resume bucket o s))).
Proof.
  intros H. unfold getAssetsByBucket_resume. destruct o as [data|name]; simpl.
  - unfold update. pose proof (I3_storeResponse bucket data _ H) as H'.
    destruct (storeResponse bucket data (grid s)) as [g|e g]; simpl in *; [done|].
    by destruct (bool_decide _).
  - by destruct (bool_decide _).
Qed.

Lemma I3_removeAsset assetId (s : Store) :
  I3 (grid s) → I3 (grid (after (removeAsset assetId s))).
Proof.
  intros H. unfold removeAsset, update, removeAsset_fn.
  by destruct (at_index _ _).
Qed.

Lemma I3_updateBucketHeight bucket h (s : Store) :
  I3 (grid s) → I3 (grid (after (updateBucketHeight bucket h s))).
Proof.
  intros H. unfold updateBucketHeight, update, updateBucketHeight_fn.
  destruct (at_index _ _) as [b|] eqn:E; simpl; [|done].
  apply at_findIndex_Some in E as (_ & Hb & _).
  unfold I3 in *. simpl. rewrite H. symmetry.
  by apply (allAssets_insert_same _ _ b).
Qed.

Lemma I3_cancelBucketRequest token bucketDate (s : Store) :
  I3 (grid s) → I3 (grid (after (cancelBucketRequest token bucketDate s))).
Proof.
  intros H. unfold cancelBucketRequest. simpl.
  destruct (at_index _ _) as [b|] eqn:E; simpl; [|done].
  apply at_findIndex_Some in E as (_ & Hb & _).
  unfold I3 in *. simpl. rewrite H. symmetry.
  by apply (allAssets_insert_same _ _ b).
Qed.

Lemma I3_updateAsset assetId v (s : Store) :
  I3 (grid s) → I3 (grid (after (updateAsset assetId v s))).
Proof.
  intros H. unfold updateAsset, update, updateAsset_fn.
  destruct (at_index _ _) as [b|]; simpl; [|done].
  by destruct (at_index _ _).
Qed.

Lemma I3_step (e : Event) (s : Store) :
  I3 (grid s) → I3 (grid (after (step calc e s))).
Proof.
  intros H. destruct e; cbn [step].
  - apply I3_reset.
  - apply I3_setInitialState.
  - pose proof (grid_issue bucket s) as Hg.
    destruct (getAssetsByBucket_issue bucket s) as [s1 [call|]]; simpl in *;
      by rewrite Hg.
  - destruct (pending s !! n); [|done]. by apply I3_resume.
  - by apply I3_removeAsset.
  - by apply I3_updateBucketHeight.
  - by apply I3_cancelBucketRequest.
  - by apply I3_updateAsset.
Qed.

Lemma I3_run (events : list Event) (s : Store) :
  I3 (grid s) → I3 (grid (run calc events s)).
Proof.
  revert s. induction events as [|e events IH]; intros s H; [done|].
  simpl. apply IH. by apply I3_step.
Qed.

(** C1.  At every point of every execution, that is after any sequence of
    calls of [reset], [setInitialState], [getAssetsByBucket] (with the
    settlement of its fetch, by a response or by an error), [removeAsset],
    [updateBucketHeight], [cancelBucketRequest] and [updateAsset], whether
    the call ended normally or threw, the flattened list is the
    concatenation of the buckets' item lists in bucket order. *)
Theorem flattened_list_is_concatenation (events : list Event) (e : Event) :
  let s := run calc events initial_store in
  I3 (grid s) ∧ I3 (grid (after (step calc e s))).
Proof.
  intros s.
  assert (H : I3 (grid s)) by (by apply I3_run).
  split; [exact H|]. by apply I3_step.
Qed.

End FlattenedList.

(** ** Initialisation *)

Section Initialisation.

Variable calc : Z → Z → Z.

Lemma Forall2_imap {A B : Type} (P : A → B → Prop) (f : nat → A → B) (l : list A) :
  (∀ i x, P x (f i x)) → Forall2 P l (imap f l).
Proof.
  revert f. induction l as [|x l IH]; intros f Hf; csimpl; constructor.
  - apply Hf.
  - apply IH. intros i y. apply Hf.
Qed.

Lemma sumBy_imap {A B : Type} (g : B → Z) (h : A → Z) (f : nat → A → B) (l : list A) :
  (∀ i x, g (f i x) = h x) → sumBy g (imap f l) = sumBy h l.
Proof.
  revert f. induction l as [|x l IH]; intros f Hf; csimpl; [done|].
  rewrite Hf. f_equal. apply IH. intros i y. apply Hf.
Qed.

Lemma fmap_imap_const {A B C : Type} (g : B → C) (h : A → C) (f : nat → A → B)
    (l : list A) :
  (∀ i x, g (f i x) = h x) → g <$> imap f l = h <$> l.
Proof.
  revert f. induction l as [|x l IH]; intros f Hf; csimpl; [done|].
  rewrite Hf. f_equal. apply IH. intros i y. apply Hf.
Qed.

(** C5.  For every bucket layout, [setInitialState] ends normally in a state
    with one bucket per layout entry, in the order of the layout, each with
    the entry's key, the estimated height and no items; the timeline height
    is the sum of the estimates, the flattened list is empty, [initialized]
    is true, and the fetch client has not been called (nor is any call left
    waiting).  Each bucket has a controller of its own, newly made, and no
    controller is aborted by the call.  Distinct keys are not needed for
    any of this. *)
Theorem setInitialState_builds_layout (viewportHeight viewportWidth : Z)
    (timeBuckets : list TimeBucketResponseDto.t) (options : AssetGridOptions.t)
    (s : Store) :
  ∃ s', setInitialState calc viewportHeight viewportWidth timeBuckets options s
          = Normal s' ∧
    Forall2 (λ tb b,
        AssetBucket.bucketDate b = TimeBucketResponseDto.timeBucket tb ∧
        AssetBucket.bucketHeight b = estimateOf calc viewportWidth tb ∧
        AssetBucket.assets b = [])
      timeBuckets (AssetGridState.buckets (grid s')) ∧
    AssetGridState.timelineHeight (grid s')
      = sumBy (estimateOf calc viewportWidth) timeBuckets ∧
    I2 (grid s') ∧
    AssetGridState.assets (grid s') = [] ∧
    AssetGridState.initialized (grid s') = true ∧
    AssetGridState.viewportHeight (grid s') = viewportHeight ∧
    AssetGridState.viewportWidth (grid s') = viewportWidth ∧
    AssetGridState.options (grid s') = options ∧
    (∀ i b, AssetGridState.buckets (grid s') !! i = Some b →
            AssetBucket.cancelToken b = (nextToken s + i)%nat) ∧
    aborted s' = aborted s ∧
    fetchLog s' = fetchLog s ∧ pending s' = pending s.
Proof.
  eexists. split; [reflexivity|]. simpl.
  assert (Hsum : sumBy AssetBucket.bucketHeight
                   (imap (initialBucket calc viewportWidth (nextToken s)) timeBuckets)
                 = sumBy (estimateOf calc viewportWidth) timeBuckets)
    by (by apply sumBy_imap).
  split; [|split; [|split]]; [| exact Hsum | reflexivity |].
  - apply Forall2_imap. intros i tb. by repeat split.
  - repeat split; try done.
    intros i b Hb. rewrite list_lookup_imap in Hb.
    destruct (timeBuckets !! i) as [tb|]; [|done]. by injection Hb as <-.
Qed.

(** C3, as the code has it.  [setInitialState] has no failure: for every
    layout it ends normally, and the keys of the state it establishes are
    the keys of the layout in the same order; so the state has unique keys
    (I1) exactly when the layout has. *)
Theorem setInitialState_never_fails (viewportHeight viewportWidth : Z)
    (timeBuckets : list TimeBucketResponseDto.t) (options : AssetGridOptions.t)
    (s : Store) :
  let result :=
    setInitialState calc viewportHeight viewportWidth timeBuckets options s in
  is_normal result = true ∧
  AssetBucket.bucketDate <$> AssetGridState.buckets (grid (after result))
    = TimeBucketResponseDto.timeBucket <$> timeBuckets ∧
  (I1 (grid (after result))
   ↔ NoDup (TimeBucketResponseDto.timeBucket <$> timeBuckets)).
Proof.
  intros result.
  assert (Hkeys : AssetBucket.bucketDate <$> AssetGridState.buckets (grid (after result))
                  = TimeBucketResponseDto.timeBucket <$> timeBuckets).
  { subst result. simpl. by apply fmap_imap_const. }
  split; [reflexivity|]. split; [exact Hkeys|].
  unfold I1. by rewrite Hkeys.
Qed.

End Initialisation.

(** C3, as the spec has it, fails: a layout that names "2024-01" twice is
    accepted, the call ends normally (no [InvalidLayout], no error at all),
    and the state it establishes has two buckets with that key. *)
Lemma setInitialState_accepts_duplicate_keys :
  let result :=
    setInitialState flatEstimate 800 400 sameMonthTwice byMonth initial_store in
  ¬ NoDup (TimeBucketResponseDto.timeBucket <$> sameMonthTwice) ∧
  result ≠ Throw "InvalidLayout" (after result) ∧
  is_normal result = true ∧
  AssetBucket.bucketDate <$> AssetGridState.buckets (grid (after result))
    = ["2024-01"; "2024-01"] ∧
  ¬ I1 (grid (after result)).
Proof.
  assert (Hdup : ¬ NoDup ["2024-01"; "2024-01"]).
  { intros H. apply NoDup_cons in H as [Hnotin _]. apply Hnotin. by left. }
  repeat split; try done.
Qed.

(** ** Height accounting *)

Lemma with_grid_same (s : Store) : with_grid (grid s) s = s.
Proof. by destruct s. Qed.

Lemma hasDate_true (bucket : string) (b : AssetBucket.t) :
  hasDate bucket b = true ↔ AssetBucket.bucketDate b = bucket.
Proof. unfold hasDate. apply bool_decide_eq_true. Qed.

Lemma hasDate_false (bucket : string) (b : AssetBucket.t) :
  hasDate bucket b = false ↔ AssetBucket.bucketDate b ≠ bucket.
Proof. unfold hasDate. apply bool_decide_eq_false. Qed.

(** C7.  When some bucket has the key, [updateBucketHeight] ends normally;
    the first bucket with that key gets the measured height, the timeline
    height moves by the measured height minus the height the bucket had
    (whichever is larger), and nothing else changes: not the other buckets,
    not the key, items or controller of that bucket, not the flattened
    list.  If the timeline height was the sum of the bucket heights (I2), it
    still is. *)
Theorem updateBucketHeight_moves_timeline (bucket : string)
    (actualBucketHeight : Z) (s : Store) :
  bucket ∈ AssetBucket.bucketDate <$> AssetGridState.buckets (grid s) →
  ∃ (i : nat) (b : AssetBucket.t) (s' : Store),
    AssetGridState.buckets (grid s) !! i = Some b ∧
    AssetBucket.bucketDate b = bucket ∧
    (∀ j b', (j < i)%nat → AssetGridState.buckets (grid s) !! j = Some b' →
             AssetBucket.bucketDate b' ≠ bucket) ∧
    updateBucketHeight bucket actualBucketHeight s = Normal s' ∧
    AssetGridState.timelineHeight (grid s')
      = AssetGridState.timelineHeight (grid s)
        + (actualBucketHeight - AssetBucket.bucketHeight b) ∧
    AssetGridState.buckets (grid s')
      = <[i := AssetBucket.mk bucket actualBucketHeight
                 (AssetBucket.assets b) (AssetBucket.cancelToken b)]>
          (AssetGridState.buckets (grid s)) ∧
    (∀ j, j ≠ i →
       AssetGridState.buckets (grid s') !! j = AssetGridState.buckets (grid s) !! j) ∧
    AssetGridState.assets (grid s') = AssetGridState.assets (grid s) ∧
    AssetBucket.assets <$> AssetGridState.buckets (grid s')
      = AssetBucket.assets <$> AssetGridState.buckets (grid s) ∧
    s' = with_grid
           (AssetGridState.set_buckets (AssetGridState.buckets (grid s'))
              (AssetGridState.set_timelineHeight
                 (AssetGridState.timelineHeight (grid s')) (grid s))) s ∧
    (I2 (grid s) → I2 (grid s')).
Proof.
  intros Hin. apply list_elem_of_fmap in Hin as (b0 & Hdate & Hb0).
  destruct (at_findIndex_is_Some (hasDate bucket) _ b0 Hb0) as [b Hb].
  { by apply hasDate_true. }
  pose proof Hb as Hb'.
  apply at_findIndex_Some in Hb' as (Hge & Hlook & Hp & Hmin).
  apply hasDate_true in Hp.
  set (i := Z.to_nat (findIndex (hasDate bucket) (AssetGridState.buckets (grid s)))) in *.
  exists i, b. eexists. split; [exact Hlook|]. split; [exact Hp|].
  split. { intros j b' Hj Hb'. apply hasDate_false. by apply (Hmin j). }
  split. { unfold updateBucketHeight, update, updateBucketHeight_fn. rewrite Hb. reflexivity. }
  simpl. fold i.
  split. { destruct (Z.geb_spec actualBucketHeight (AssetBucket.bucketHeight b)); lia. }
  split. { unfold AssetBucket.set_bucketHeight. by rewrite Hp. }
  split. { intros j Hj. by apply list_lookup_insert_ne. }
  split; [reflexivity|].
  split; [|split; [reflexivity|]].
  - rewrite list_fmap_insert. apply list_insert_id.
    by rewrite list_lookup_fmap, Hlook.
  - unfold I2. simpl. intros HI2. fold i.
    rewrite (sumBy_insert _ _ _ b) by done. simpl.
    destruct (Z.geb_spec actualBucketHeight (AssetBucket.bucketHeight b)); lia.
Qed.

(** Scenario D: after scenario A the estimate of "2024-02" is 90; measuring
    120 raises the timeline height by exactly 30. *)
Lemma updateBucketHeight_scenario_D :
  ∃ (i : nat) (b : AssetBucket.t) (s' : Store),
    AssetGridState.buckets (grid scenarioA) !! i = Some b ∧
    AssetBucket.bucketDate b = "2024-02" ∧
    (∀ j b', (j < i)%nat → AssetGridState.buckets (grid scenarioA) !! j = Some b' →
             AssetBucket.bucketDate b' ≠ "2024-02") ∧
    updateBucketHeight "2024-02" 120 scenarioA = Normal s' ∧
    AssetGridState.timelineHeight (grid s')
      = AssetGridState.timelineHeight (grid scenarioA)
        + (120 - AssetBucket.bucketHeight b) ∧
    AssetGridState.buckets (grid s')
      = <[i := AssetBucket.mk "2024-02" 120
                 (AssetBucket.assets b) (AssetBucket.cancelToken b)]>
          (AssetGridState.buckets (grid scenarioA)) ∧
    (∀ j, j ≠ i →
       AssetGridState.buckets (grid s') !! j
       = AssetGridState.buckets (grid scenarioA) !! j) ∧
    AssetGridState.assets (grid s') = AssetGridState.assets (grid scenarioA) ∧
    AssetBucket.assets <$> AssetGridState.buckets (grid s')
      = AssetBucket.assets <$> AssetGridState.buckets (grid scenarioA) ∧
    s' = with_grid
           (AssetGridState.set_buckets (AssetGridState.buckets (grid s'))
              (AssetGridState.set_timelineHeight
                 (AssetGridState.timelineHeight (grid s')) (grid scenarioA)))
           scenarioA ∧
    (I2 (grid scenarioA) → I2 (grid s')).
Proof.
  apply (updateBucketHeight_moves_timeline "2024-02" 120 scenarioA).
  vm_compute. apply list_elem_of_In. right. left. reflexivity.
Defined.

(** ** Failure of a fetch *)

(** C8.  When the awaited fetch is rejected with an error that is not a
    [CanceledError], [getAssetsByBucket] still ends normally (the [catch]
    block swallows the error), and the only trace is two lines on the
    console: the grid state, with every bucket, the flattened list and the
    timeline height, is the one before, and so are the controllers.  The
    bucket stays as it was, so a bucket that had no items has none and the
    next call for it calls the fetch client again. *)
Theorem fetch_failure_leaves_grid (bucket name : string) (s : Store) :
  name ≠ "CanceledError" →
  ∃ s', getAssetsByBucket_resume bucket (Rejected name) s = Normal s' ∧
    grid s' = grid s ∧
    aborted s' = aborted s ∧ nextToken s' = nextToken s ∧
    fetchLog s' = fetchLog s ∧ pending s' = pending s ∧
    console s' = console s ++ ["Failed to get asset for bucket " +:+ bucket; name] ∧
    (∀ b, List.find (hasDate bucket) (AssetGridState.buckets (grid s)) = Some b →
          AssetBucket.assets b = [] →
          List.find (hasDate bucket) (AssetGridState.buckets (grid s')) = Some b ∧
          ∃ call, (getAssetsByBucket_issue bucket s').2 = Some call ∧
                  fetch_bucket call = bucket ∧
                  fetch_signal call = Some (AssetBucket.cancelToken b)).
Proof.
  intros Hname. eexists. split.
  { unfold getAssetsByBucket_resume, getAssetsByBucket_catch.
    rewrite bool_decide_eq_false_2 by done. reflexivity. }
  simpl. split; [done|]. do 4 (split; [done|]).
  split; [by rewrite <- app_assoc|].
  intros b Hfind Hempty. split; [exact Hfind|].
  unfold getAssetsByBucket_issue. simpl. rewrite Hfind, Hempty. simpl. eauto.
Qed.

(** A server error while "2024-01" of scenario A is loading. *)
Lemma fetch_failure_scenario :
  ∃ s', getAssetsByBucket_resume "2024-01" (Rejected "AxiosError") scenarioA
          = Normal s' ∧
    grid s' = grid scenarioA ∧
    aborted s' = aborted scenarioA ∧ nextToken s' = nextToken scenarioA ∧
    fetchLog s' = fetchLog scenarioA ∧ pending s' = pending scenarioA ∧
    console s' = console scenarioA
                 ++ ["Failed to get asset for bucket " +:+ "2024-01"; "AxiosError"] ∧
    (∀ b, List.find (hasDate "2024-01") (AssetGridState.buckets (grid scenarioA))
            = Some b →
          AssetBucket.assets b = [] →
          List.find (hasDate "2024-01") (AssetGridState.buckets (grid s')) = Some b ∧
          ∃ call, (getAssetsByBucket_issue "2024-01" s').2 = Some call ∧
                  fetch_bucket call = "2024-01" ∧
                  fetch_signal call = Some (AssetBucket.cancelToken b)).
Proof.
  apply (fetch_failure_leaves_grid "2024-01" "AxiosError" scenarioA).
  discriminate.
Defined.

(** ** Items that no bucket holds *)

Lemma holdsAsset_true (assetId : string) (b : AssetBucket.t) :
  holdsAsset assetId b = true
  ↔ ∃ a, a ∈ AssetBucket.assets b ∧ AssetResponseDto.id a = assetId.
Proof.
  unfold holdsAsset. rewrite existsb_exists. split.
  - intros (a & Hin & Ha). exists a. split; [by apply list_elem_of_In|].
    by apply bool_decide_eq_true in Ha.
  - intros (a & Hin & Ha). exists a. split; [by apply list_elem_of_In|].
    by apply bool_decide_eq_true.
Qed.

Lemma not_owned_findIndex (assetId : string) (g : AssetGridState.t) :
  ¬ owned assetId g ↔ findIndex (holdsAsset assetId) (AssetGridState.buckets g) = -1.
Proof.
  rewrite findIndex_absent, Forall_forall. split.
  - intros Hno b Hb. destruct (holdsAsset assetId b) eqn:E; [|done].
    exfalso. apply Hno. apply holdsAsset_true in E as (a & Ha & Hid).
    by exists b, a.
  - intros Hall (b & a & Hb & Ha & Hid).
    assert (holdsAsset assetId b = true) by (apply holdsAsset_true; eauto).
    specialize (Hall b Hb). congruence.
Qed.

(** The bucket and the item that [removeAsset] and [updateAsset] work on
    when some bucket holds the item. *)
Lemma owned_located (assetId : string) (g : AssetGridState.t) :
  owned assetId g →
  ∃ b a, at_index (AssetGridState.buckets g)
           (findIndex (holdsAsset assetId) (AssetGridState.buckets g)) = Some b ∧
         at_index (AssetBucket.assets b)
           (findIndex (hasId assetId) (AssetBucket.assets b)) = Some a ∧
         AssetResponseDto.id a = assetId.
Proof.
  intros (b0 & a0 & Hb0 & Ha0 & Hid).
  destruct (at_findIndex_is_Some (holdsAsset assetId) _ b0 Hb0) as [b Hb].
  { apply holdsAsset_true. eauto. }
  pose proof Hb as Hb'. apply at_findIndex_Some in Hb' as (_ & _ & Hp & _).
  apply holdsAsset_true in Hp as (a1 & Ha1 & Hid1).
  destruct (at_findIndex_is_Some (hasId assetId) _ a1 Ha1) as [a Ha].
  { by apply bool_decide_eq_true. }
  exists b, a. repeat split; [done..|].
  apply at_findIndex_Some in Ha as (_ & _ & Hp & _).
  by apply bool_decide_eq_true in Hp.
Qed.

(** C10.  [removeAsset] and [updateAsset] take for granted that some bucket
    holds the item.  When none does, [findIndex] answers -1, [buckets[-1]]
    is [undefined], and reading its [assets] throws a [TypeError] before
    anything is written: neither call hands back a state.  When some bucket
    holds the item, both calls end normally. *)
Theorem item_mutations_need_the_item (assetId : string) (s : Store) :
  (¬ owned assetId (grid s) →
     findIndex (holdsAsset assetId) (AssetGridState.buckets (grid s)) = -1 ∧
     at_index (AssetGridState.buckets (grid s)) (-1) = None ∧
     removeAsset assetId s = Throw "TypeError" s ∧
     ∀ isFavorite, updateAsset assetId isFavorite s = Throw "TypeError" s) ∧
  (owned assetId (grid s) →
     is_normal (removeAsset assetId s) = true ∧
     ∀ isFavorite, is_normal (updateAsset assetId isFavorite s) = true).
Proof.
  split.
  - intros Hno. apply not_owned_findIndex in Hno.
    unfold removeAsset, updateAsset, update, removeAsset_fn, updateAsset_fn.
    rewrite Hno. simpl. by rewrite with_grid_same.
  - intros Hown. destruct (owned_located _ _ Hown) as (b & a & Hb & Ha & _).
    unfold removeAsset, updateAsset, update, removeAsset_fn, updateAsset_fn.
    rewrite Hb. split; [done|]. intros v. by rewrite Ha.
Qed.

(** In scenario A no bucket holds "p01" and both calls throw; in scenario B
    the first bucket holds it and both calls end normally. *)
Lemma item_mutations_scenarios :
  (removeAsset "p01" scenarioA = Throw "TypeError" scenarioA ∧
   updateAsset "p01" true scenarioA = Throw "TypeError" scenarioA) ∧
  (is_normal (removeAsset "p01" scenarioB) = true ∧
   is_normal (updateAsset "p01" true scenarioB) = true).
Proof.
  split.
  - destruct (proj1 (item_mutations_need_the_item "p01" scenarioA))
      as (_ & _ & Hremove & Hupdate).
    + apply not_owned_findIndex. reflexivity.
    + split; [exact Hremove | exact (Hupdate true)].
  - destruct (proj2 (item_mutations_need_the_item "p01" scenarioB))
      as (Hremove & Hupdate).
    + exists (AssetBucket.mk "2024-01" 180 january 0%nat), (photo "p01").
      split; [|split; [|reflexivity]]; vm_compute; apply list_elem_of_here.
    + split; [exact Hremove | exact (Hupdate true)].
Defined.

(** ** Loading a bucket once *)

Lemma find_findIndex {A : Type} (p : A → bool) (l : list A) :
  List.find p l = at_index l (findIndex p l).
Proof.
  induction l as [|x l IH]; simpl; [done|].
  destruct (p x); [done|].
  pose proof (findIndex_range p l) as Hr.
  rewrite IH. unfold at_index.
  destruct (Z.ltb_spec (findIndex p l) 0) as [Hlt|Hge]; [done|].
  destruct (Z.ltb_spec (1 + findIndex p l) 0); [lia|].
  by replace (Z.to_nat (1 + findIndex p l)) with (S (Z.to_nat (findIndex p l))) by lia.
Qed.

Lemma findIndex_via_fmap {A : Type} (p : A → bool) (l : list A) :
  findIndex p l = findIndex (λ t : bool, t) (p <$> l).
Proof. induction l as [|x l IH]; csimpl; [done|]. by rewrite IH. Qed.

(** Where [findIndex] finds a key depends on the keys of the buckets only. *)
Lemma findIndex_same_dates (bucket : string) (bs bs' : list AssetBucket.t) :
  AssetBucket.bucketDate <$> bs' = AssetBucket.bucketDate <$> bs →
  findIndex (hasDate bucket) bs' = findIndex (hasDate bucket) bs.
Proof.
  intros H. rewrite (findIndex_via_fmap _ bs), (findIndex_via_fmap _ bs').
  f_equal.
  change (hasDate bucket) with ((λ d : string, bool_decide (d = bucket)) ∘ AssetBucket.bucketDate).
  by rewrite !list_fmap_compose, H.
Qed.

Lemma dates_insert (bs : list AssetBucket.t) (i : nat) (b b' : AssetBucket.t) :
  bs !! i = Some b → AssetBucket.bucketDate b' = AssetBucket.bucketDate b →
  AssetBucket.bucketDate <$> <[i:=b']> bs = AssetBucket.bucketDate <$> bs.
Proof.
  intros Hb Heq. rewrite list_fmap_insert, Heq. apply list_insert_id.
  by rewrite list_lookup_fmap, Hb.
Qed.

(** What a response does to the grid when the bucket is there. *)
Lemma storeResponse_found (bucket : string) (data : list AssetResponseDto.t)
    (g : AssetGridState.t) (b : AssetBucket.t) :
  List.find (hasDate bucket) (AssetGridState.buckets g) = Some b →
  ∃ g', storeResponse bucket data g = Normal g' ∧
        List.find (hasDate bucket) (AssetGridState.buckets g')
          = Some (AssetBucket.set_assets data b).
Proof.
  intros Hfind. rewrite find_findIndex in Hfind. unfold storeResponse.
  rewrite Hfind. eexists. split; [reflexivity|]. simpl.
  apply at_findIndex_Some in Hfind as (Hge & Hlook & _).
  rewrite find_findIndex.
  rewrite (findIndex_same_dates bucket (AssetGridState.buckets g) (<[_:=_]> _))
    by (by apply (dates_insert _ _ b)).
  apply at_index_Some. split; [done|].
  apply list_lookup_insert_eq. by apply lookup_lt_Some in Hlook.
Qed.

(** C6.  Let [b] be the bucket [getAssetsByBucket] finds under the key.
    If [b] has items, the call returns at once: the fetch client is not
    called and the store is what it was.  If [b] has none, the call calls
    the fetch client once; when that fetch resolves with a non-empty
    response, a second call returns at once, so the two calls together have
    called the fetch client exactly once. *)
Theorem getAssetsByBucket_skips_loaded (bucket : string) (b : AssetBucket.t)
    (s : Store) :
  List.find (hasDate bucket) (AssetGridState.buckets (grid s)) = Some b →
  (AssetBucket.assets b ≠ [] →
     getAssetsByBucket_issue bucket s = (s, None) ∧
     ∀ client, getAssetsByBucket client bucket s = Normal s) ∧
  (AssetBucket.assets b = [] →
     ∃ call, (getAssetsByBucket_issue bucket s).2 = Some call ∧
       ∀ client1 client2 data, client1 call = Resolved data → data ≠ [] →
         ∃ s1, getAssetsByBucket client1 bucket s = Normal s1 ∧
               fetchLog s1 = fetchLog s ++ [call] ∧
               getAssetsByBucket client2 bucket s1 = Normal s1 ∧
               fetchLog (after (getAssetsByBucket client2 bucket s1))
                 = fetchLog s ++ [call]).
Proof.
  intros Hfind. split.
  - intros Hne.
    assert (Hissue : getAssetsByBucket_issue bucket s = (s, None)).
    { unfold getAssetsByBucket_issue. rewrite Hfind.
      destruct (AssetBucket.assets b); [done|reflexivity]. }
    split; [exact Hissue|]. intros client. unfold getAssetsByBucket.
    by rewrite Hissue.
  - intros Hempty. unfold getAssetsByBucket, getAssetsByBucket_issue.
    rewrite Hfind, Hempty. simpl. eexists. split; [reflexivity|].
    intros client1 client2 data Hclient Hdata. rewrite Hclient.
    destruct (storeResponse_found bucket data (grid s) b Hfind) as (g' & Hg' & Hfind').
    unfold getAssetsByBucket_resume, update. simpl. rewrite Hg'. simpl.
    eexists. split; [reflexivity|]. simpl. split; [reflexivity|].
    rewrite Hfind'. simpl.
    destruct data; [done|]. simpl. done.
Qed.

(** Scenario B again: "2024-01" of scenario A is empty, its first load
    brings ten items, the second call does not fetch; and in scenario B
    itself a call for "2024-01" returns at once. *)
Lemma getAssetsByBucket_twice_scenario :
  (∃ call s1,
     getAssetsByBucket (λ _, Resolved january) "2024-01" scenarioA = Normal s1 ∧
     fetchLog s1 = fetchLog scenarioA ++ [call] ∧
     getAssetsByBucket (λ _, Resolved january) "2024-01" s1 = Normal s1) ∧
  getAssetsByBucket_issue "2024-01" scenarioB = (scenarioB, None).
Proof.
  split.
  - destruct (getAssetsByBucket_skips_loaded "2024-01"
                (AssetBucket.mk "2024-01" 180 [] 0%nat) scenarioA)
      as [_ Hempty]; [reflexivity|].
    destruct (Hempty eq_refl) as (call & _ & Htwice).
    destruct (Htwice (λ _, Resolved january) (λ _, Resolved january) january)
      as (s1 & Hfirst & Hlog & Hsecond & _); [reflexivity | discriminate |].
    exists call, s1. done.
  - destruct (getAssetsByBucket_skips_loaded "2024-01"
                (AssetBucket.mk "2024-01" 180 january 0%nat) scenarioB)
      as [Hloaded _]; [reflexivity|].
    destruct Hloaded as [Hissue _]; [discriminate | exact Hissue].
Defined.

(** ** Superseded fetches *)

Section Supersession.

Variable calc : Z → Z → Z.

(** C2, as the code has it.  Take a call of [getAssetsByBucket] suspended at
    its [await], superseded or not.  If the fetch client rejects the fetch
    with a [CanceledError], which is how an aborted signal is reported, the
    call ends normally and leaves everything as it was: the grid, the
    controllers, the console.  Any rejection leaves the grid as it was.  But
    the code after the [await] never looks at the controller: if the fetch
    resolves, what happens to the grid is what [storeResponse] does with the
    response, whatever has been aborted in the meantime. *)
Theorem rejected_fetch_leaves_grid (n : nat) (call : FetchCall) (s : Store) :
  pending s !! n = Some call →
  step calc (Settle n (Rejected "CanceledError")) s
    = Normal (with_pending (delete n (pending s)) s) ∧
  (∀ name, grid (after (step calc (Settle n (Rejected name)) s)) = grid s) ∧
  (∀ data, grid (after (step calc (Settle n (Resolved data)) s))
           = after (storeResponse (fetch_bucket call) data (grid s))).
Proof.
  intros Hcall. cbn [step]. rewrite Hcall. split; [reflexivity|]. split.
  - intros name. unfold getAssetsByBucket_resume, getAssetsByBucket_catch.
    by destruct (bool_decide _).
  - intros data. unfold getAssetsByBucket_resume, update. simpl.
    destruct (storeResponse _ _ _) as [g|e g]; simpl; [done|].
    by destruct (bool_decide _).
Qed.

End Supersession.

(** Scenario E with a fetch client that reports the abort. *)
Lemma rejected_fetch_scenario_E :
  superseded (mkFetchCall "MONTH" "2024-01" byMonth (Some 0%nat)) scenarioE ∧
  step flatEstimate (Settle 0 (Rejected "CanceledError")) scenarioE
    = Normal (with_pending [] scenarioE).
Proof.
  split.
  - exists 0%nat. split; [reflexivity|]. vm_compute. reflexivity.
  - apply (rejected_fetch_leaves_grid flatEstimate 0
             (mkFetchCall "MONTH" "2024-01" byMonth (Some 0%nat)) scenarioE).
    reflexivity.
Defined.

(** C2, as the spec has it, fails.  In scenario E the fetch for "2024-01"
    was given the signal of controller 0, and that controller has been
    aborted by [cancelBucketRequest] (the bucket now has controller 2).  If
    the fetch nevertheless resolves with ten items, they are written into
    the bucket and into the flattened list. *)
Lemma superseded_fetch_overwrites_bucket :
  let late := after (step flatEstimate (Settle 0 (Resolved january)) scenarioE) in
  pending scenarioE = [mkFetchCall "MONTH" "2024-01" byMonth (Some 0%nat)] ∧
  superseded (mkFetchCall "MONTH" "2024-01" byMonth (Some 0%nat)) scenarioE ∧
  AssetBucket.cancelToken <$> AssetGridState.buckets (grid scenarioE) = [2%nat; 1%nat] ∧
  AssetBucket.assets <$> AssetGridState.buckets (grid scenarioE) = [[]; []] ∧
  AssetBucket.assets <$> AssetGridState.buckets (grid late) = [january; []] ∧
  AssetGridState.assets (grid late) = january ∧
  grid late ≠ grid scenarioE.
Proof.
  repeat split; try reflexivity.
  - exists 0%nat. split; [reflexivity|]. vm_compute. reflexivity.
  - intros H. apply (f_equal AssetGridState.assets) in H. discriminate H.
Qed.

(** ** Buckets with items come first among the buckets with their key *)

Lemma findIndex_delete {A : Type} (p : A → bool) (l : list A) (i : nat) (x : A) :
  l !! i = Some x → p x = false →
  findIndex p (delete i l)
  = if findIndex p l <? Z.of_nat i then findIndex p l else findIndex p l - 1.
Proof.
  revert i. induction l as [|y l IH]; intros i Hx Hp; [done|].
  pose proof (findIndex_range p l) as Hr.
  destruct i as [|i].
  - injection Hx as ->. change (delete 0%nat (x :: l)) with l.
    cbn [findIndex]. rewrite Hp. ltb_cases.
  - change (delete (S i) (y :: l)) with (y :: delete i l).
    cbn [findIndex]. change ((y :: l) !! S i) with (l !! i) in Hx.
    destruct (p y) eqn:Hy; [ltb_cases|].
    rewrite (IH i Hx Hp).
    assert (Hne : findIndex p l ≠ Z.of_nat i).
    { intros Heq. destruct (findIndex_first p l) as (z & Hz & Hpz & _); [lia|].
      rewrite Heq, Nat2Z.id in Hz. congruence. }
    destruct (Z.ltb_spec (findIndex p l) (Z.of_nat i));
      destruct (Z.ltb_spec (findIndex p l) 0); ltb_cases.
Qed.

Lemma delete_insert_same {A : Type} (l : list A) (i : nat) (x : A) :
  delete i (<[i:=x]> l) = delete i l.
Proof.
  revert i. induction l as [|y l IH]; intros [|i]; simpl; try done.
  f_equal. apply IH.
Qed.

Lemma loadedFirst_insert (bs : list AssetBucket.t) (i : nat) (b b' : AssetBucket.t) :
  bs !! i = Some b →
  AssetBucket.bucketDate b' = AssetBucket.bucketDate b →
  (AssetBucket.assets b' ≠ [] →
   findIndex (hasDate (AssetBucket.bucketDate b)) bs = Z.of_nat i) →
  loadedFirst bs → loadedFirst (<[i:=b']> bs).
Proof.
  intros Hb Hdate Hfirst Hinv j c Hc Hne.
  rewrite (findIndex_same_dates _ bs) by (by apply (dates_insert _ _ b)).
  destruct (decide (j = i)) as [->|Hji].
  - rewrite list_lookup_insert_eq in Hc by (by apply lookup_lt_Some in Hb).
    injection Hc as <-. rewrite Hdate. by apply Hfirst.
  - rewrite list_lookup_insert_ne in Hc by done. by apply Hinv.
Qed.

Lemma loadedFirst_delete (bs : list AssetBucket.t) (i : nat) (b : AssetBucket.t) :
  bs !! i = Some b →
  findIndex (hasDate (AssetBucket.bucketDate b)) bs = Z.of_nat i →
  loadedFirst bs → loadedFirst (delete i bs).
Proof.
  intros Hb Hfirst Hinv j c Hc Hne.
  assert (Horig : ∃ j', bs !! j' = Some c ∧ j' ≠ i ∧
                        Z.of_nat j = if Z.of_nat j' <? Z.of_nat i
                                     then Z.of_nat j' else Z.of_nat j' - 1).
  { destruct (decide (j < i)%nat) as [Hlt|Hge].
    - rewrite list_lookup_delete_lt in Hc by done. exists j.
      split; [done|]. split; [lia|]. destruct (Z.ltb_spec (Z.of_nat j) (Z.of_nat i)); lia.
    - rewrite list_lookup_delete_ge in Hc by lia. exists (S j).
      split; [done|]. split; [lia|].
      destruct (Z.ltb_spec (Z.of_nat (S j)) (Z.of_nat i)); lia. }
  destruct Horig as (j' & Hc' & Hne' & Hj).
  pose proof (Hinv j' c Hc' Hne) as Hfirst'.
  assert (Hdiff : hasDate (AssetBucket.bucketDate c) b = false).
  { apply hasDate_false. intros Heq. rewrite Heq in Hfirst. lia. }
  rewrite (findIndex_delete _ _ _ b Hb Hdiff), Hfirst'. lia.
Qed.

Lemma loadedFirst_empty (bs : list AssetBucket.t) :
  Forall (λ b, AssetBucket.assets b = []) bs → loadedFirst bs.
Proof.
  intros Hall i b Hb Hne. rewrite Forall_forall in Hall.
  exfalso. apply Hne, Hall. by apply list_elem_of_lookup_2 in Hb.
Qed.

Lemma Forall_imap {A B : Type} (P : B → Prop) (f : nat → A → B) (l : list A) :
  (∀ i x, P (f i x)) → Forall P (imap f l).
Proof.
  revert f. induction l as [|x l IH]; intros f Hf; csimpl; constructor.
  - apply Hf.
  - apply IH. intros i y. apply Hf.
Qed.

Lemma holdsAsset_nonempty (assetId : string) (b : AssetBucket.t) :
  holdsAsset assetId b = true → AssetBucket.assets b ≠ [].
Proof.
  intros (a & Ha & _)%holdsAsset_true Hnil. rewrite Hnil in Ha.
  by apply not_elem_of_nil in Ha.
Qed.

(** What [removeAsset] does to the buckets when the item is owned by a
    bucket that is the first with its key: the item goes, and the bucket
    goes with it when that was its last item. *)
Lemma removeAsset_fn_found (assetId : string) (g : AssetGridState.t) (i : nat)
    (b : AssetBucket.t) :
  findIndex (holdsAsset assetId) (AssetGridState.buckets g) = Z.of_nat i →
  AssetGridState.buckets g !! i = Some b →
  findIndex (hasDate (AssetBucket.bucketDate b)) (AssetGridState.buckets g)
    = Z.of_nat i →
  let rest := splice1 (AssetBucket.assets b)
                (findIndex (hasId assetId) (AssetBucket.assets b)) in
  let bs' := if (length rest =? 0)%nat
             then delete i (AssetGridState.buckets g)
             else <[i := AssetBucket.set_assets rest b]> (AssetGridState.buckets g) in
  removeAsset_fn assetId g
  = Normal (AssetGridState.set_assets (allAssets bs') (AssetGridState.set_buckets bs' g)).
Proof.
  intros Hi Hb Hfirst rest bs'. unfold removeAsset_fn.
  assert (Hat : at_index (AssetGridState.buckets g)
                  (findIndex (holdsAsset assetId) (AssetGridState.buckets g)) = Some b).
  { apply at_index_Some. rewrite Hi, Nat2Z.id. split; [lia|done]. }
  rewrite Hat, Hi, Nat2Z.id. simpl. fold rest. subst bs'.
  destruct (length rest =? 0)%nat eqn:Hlen; [|done].
  unfold _removeBucket. simpl.
  rewrite (findIndex_same_dates _ (AssetGridState.buckets g) (<[_:=_]> _))
    by (by apply (dates_insert _ _ b)).
  rewrite Hfirst.
  assert (Hlt : (i < length (AssetGridState.buckets g))%nat)
    by (by apply lookup_lt_Some in Hb).
  rewrite splice1_at by (by rewrite length_insert).
  by rewrite delete_insert_same.
Qed.

Lemma loadedFirst_storeResponse (bucket : string) (data : list AssetResponseDto.t)
    (g : AssetGridState.t) :
  loadedFirst (AssetGridState.buckets g) →
  loadedFirst (AssetGridState.buckets (after (storeResponse bucket data g))).
Proof.
  intros Hinv. unfold storeResponse.
  destruct (at_index _ _) as [b|] eqn:E; simpl; [|done].
  apply at_findIndex_Some in E as (Hge & Hb & Hp & _).
  apply hasDate_true in Hp.
  apply (loadedFirst_insert _ _ b); [done..| |done].
  intros _. rewrite Hp. lia.
Qed.

Lemma loadedFirst_removeAsset (assetId : string) (g : AssetGridState.t) :
  loadedFirst (AssetGridState.buckets g) →
  loadedFirst (AssetGridState.buckets (after (removeAsset_fn assetId g))).
Proof.
  intros Hinv.
  destruct (at_index (AssetGridState.buckets g)
              (findIndex (holdsAsset assetId) (AssetGridState.buckets g)))
    as [b|] eqn:E.
  - apply at_findIndex_Some in E as (Hge & Hb & Hp & _).
    pose proof (Hinv _ _ Hb (holdsAsset_nonempty _ _ Hp)) as Hfirst.
    rewrite (removeAsset_fn_found assetId g
               (Z.to_nat (findIndex (holdsAsset assetId) (AssetGridState.buckets g))) b);
      [|lia|done..]. simpl.
    destruct (_ =? _)%nat.
    + by apply (loadedFirst_delete _ _ b).
    + apply (loadedFirst_insert _ _ b); [done..| |done]. by intros _.
  - unfold removeAsset_fn. by rewrite E.
Qed.

Lemma loadedFirst_updateBucketHeight (bucket : string) (h : Z) (g : AssetGridState.t) :
  loadedFirst (AssetGridState.buckets g) →
  loadedFirst (AssetGridState.buckets (after (updateBucketHeight_fn bucket h g))).
Proof.
  intros Hinv. unfold updateBucketHeight_fn.
  destruct (at_index _ _) as [b|] eqn:E; simpl; [|done].
  apply at_findIndex_Some in E as (Hge & Hb & _).
  apply (loadedFirst_insert _ _ b); [done..| |done].
  intros Hne. by apply Hinv.
Qed.

Lemma loadedFirst_cancelBucketRequest (token : Token) (bucketDate : string) (s : Store) :
  loadedFirst (AssetGridState.buckets (grid s)) →
  loadedFirst (AssetGridState.buckets
                 (grid (after (cancelBucketRequest token bucketDate s)))).
Proof.
  intros Hinv. unfold cancelBucketRequest. simpl.
  destruct (at_index _ _) as [b|] eqn:E; simpl; [|done].
  apply at_findIndex_Some in E as (Hge & Hb & _).
  apply (loadedFirst_insert _ _ b); [done..| |done].
  intros Hne. by apply Hinv.
Qed.

Lemma loadedFirst_updateAsset (assetId : string) (v : bool) (g : AssetGridState.t) :
  loadedFirst (AssetGridState.buckets g) →
  loadedFirst (AssetGridState.buckets (after (updateAsset_fn assetId v g))).
Proof.
  intros Hinv. unfold updateAsset_fn.
  destruct (at_index _ _) as [b|] eqn:E; simpl; [|done].
  destruct (at_index (AssetBucket.assets b) _) as [a|]; simpl; [|done].
  apply at_findIndex_Some in E as (Hge & Hb & Hp & _).
  apply (loadedFirst_insert _ _ b); [done..| |done].
  intros _. apply Hinv; [done|]. by apply (holdsAsset_nonempty assetId).
Qed.

Section Reachable.

Variable calc : Z → Z → Z.

Lemma loadedFirst_step (e : Event) (s : Store) :
  loadedFirst (AssetGridState.buckets (grid s)) →
  loadedFirst (AssetGridState.buckets (grid (after (step calc e s)))).
Proof.
  intros Hinv. destruct e; cbn [step].
  - by apply loadedFirst_empty.
  - apply loadedFirst_empty. simpl. by apply Forall_imap.
  - pose proof (grid_issue bucket s) as Hg.
    destruct (getAssetsByBucket_issue bucket s) as [s1 [call|]]; simpl in *;
      by rewrite Hg.
  - destruct (pending s !! n) as [call|]; [|done].
    unfold getAssetsByBucket_resume, update. destruct o as [data|name]; simpl.
    + pose proof (loadedFirst_storeResponse (fetch_bucket call) data _ Hinv) as H'.
      destruct (storeResponse _ _ _) as [g|err g]; simpl in *; [done|].
      by destruct (bool_decide _).
    + by destruct (bool_decide _).
  - unfold removeAsset, update.
    pose proof (loadedFirst_removeAsset assetId _ Hinv) as H'.
    by destruct (removeAsset_fn _ _).
  - unfold updateBucketHeight, update.
    pose proof (loadedFirst_updateBucketHeight bucket actualBucketHeight _ Hinv) as H'.
    by destruct (updateBucketHeight_fn _ _ _).
  - by apply loadedFirst_cancelBucketRequest.
  - unfold updateAsset, update.
    pose proof (loadedFirst_updateAsset assetId isFavorite _ Hinv) as H'.
    by destruct (updateAsset_fn _ _ _).
Qed.

Lemma loadedFirst_run (events : list Event) (s : Store) :
  loadedFirst (AssetGridState.buckets (grid s)) →
  loadedFirst (AssetGridState.buckets (grid (run calc events s))).
Proof.
  revert s. induction events as [|e events IH]; intros s H; [done|].
  simpl. apply IH. by apply loadedFirst_step.
Qed.

End Reachable.

(** ** Removing the last item of a bucket *)

(** In any state: when the item to remove is the only item of its owning
    bucket and that bucket is the first with its key, the bucket leaves the
    bucket list and the timeline height stays. *)
Lemma removeAsset_last_item (assetId : string) (s : Store) (i : nat)
    (b : AssetBucket.t) :
  findIndex (holdsAsset assetId) (AssetGridState.buckets (grid s)) = Z.of_nat i →
  AssetGridState.buckets (grid s) !! i = Some b →
  splice1 (AssetBucket.assets b) (findIndex (hasId assetId) (AssetBucket.assets b)) = [] →
  findIndex (hasDate (AssetBucket.bucketDate b)) (AssetGridState.buckets (grid s))
    = Z.of_nat i →
  ∃ s', removeAsset assetId s = Normal s' ∧
    AssetGridState.buckets (grid s') = delete i (AssetGridState.buckets (grid s)) ∧
    AssetGridState.timelineHeight (grid s') = AssetGridState.timelineHeight (grid s) ∧
    excess (grid s') = excess (grid s) + AssetBucket.bucketHeight b.
Proof.
  intros Hi Hb Hlast Hfirst. unfold removeAsset, update.
  rewrite (removeAsset_fn_found assetId (grid s) i b Hi Hb Hfirst), Hlast.
  simpl. eexists. split; [reflexivity|]. simpl. split; [done|]. split; [done|].
  unfold excess. simpl. rewrite (sumBy_delete _ _ _ b Hb). lia.
Qed.

Section RemovingTheLastItem.

Variable calc : Z → Z → Z.

(** C4, as the code has it.  In every state the store reaches: when
    [removeAsset] removes the only item of the bucket that owns it, the
    call ends normally, that bucket and no other leaves the bucket list,
    and the timeline height is what it was; it is not lowered by the height
    of the bucket.  So the amount by which the timeline height exceeds the
    sum of the bucket heights grows by exactly the height of the removed
    bucket; it is exactly that height when the two were equal before the
    call (I2). *)
Theorem removeAsset_last_item_keeps_timelineHeight (events : list Event)
    (assetId : string) (i : nat) (b : AssetBucket.t) :
  let s := run calc events initial_store in
  findIndex (holdsAsset assetId) (AssetGridState.buckets (grid s)) = Z.of_nat i →
  AssetGridState.buckets (grid s) !! i = Some b →
  splice1 (AssetBucket.assets b) (findIndex (hasId assetId) (AssetBucket.assets b)) = [] →
  ∃ s', removeAsset assetId s = Normal s' ∧
    AssetGridState.buckets (grid s') = delete i (AssetGridState.buckets (grid s)) ∧
    AssetGridState.timelineHeight (grid s') = AssetGridState.timelineHeight (grid s) ∧
    excess (grid s') = excess (grid s) + AssetBucket.bucketHeight b ∧
    (I2 (grid s) →
       AssetGridState.timelineHeight (grid s')
       = sumBy AssetBucket.bucketHeight (AssetGridState.buckets (grid s'))
         + AssetBucket.bucketHeight b).
Proof.
  intros s Hi Hb Hlast.
  assert (Hp : holdsAsset assetId b = true).
  { destruct (findIndex_first (holdsAsset assetId) (AssetGridState.buckets (grid s)))
      as (b' & Hb' & Hp & _); [lia|].
    rewrite Hi, Nat2Z.id in Hb'. congruence. }
  assert (Hfirst : findIndex (hasDate (AssetBucket.bucketDate b))
                     (AssetGridState.buckets (grid s)) = Z.of_nat i).
  { apply (loadedFirst_run calc events initial_store); [by apply loadedFirst_empty|done|].
    by apply (holdsAsset_nonempty assetId). }
  destruct (removeAsset_last_item assetId s i b Hi Hb Hlast Hfirst)
    as (s' & Hrun & Hbs & Htl & Hex).
  exists s'. repeat split; try done.
  intros HI2. unfold excess, I2 in *. lia.
Qed.

End RemovingTheLastItem.

(** Why the theorem speaks of the states the store reaches: [_removeBucket]
    looks the bucket up by its key again.  In [shadowedBucket] the bucket
    that loses its last item is the second with its key; the one removed is
    the first, and the emptied bucket stays. *)
Lemma removeAsset_removes_first_with_key :
  findIndex (holdsAsset "p01") (AssetGridState.buckets (grid shadowedBucket)) = 1 ∧
  AssetGridState.buckets (grid (after (removeAsset "p01" shadowedBucket)))
    = [AssetBucket.mk "2024-01" 20 [] 1%nat] ∧
  ¬ loadedFirst (AssetGridState.buckets (grid shadowedBucket)).
Proof.
  split; [reflexivity|]. split; [reflexivity|].
  intros H. specialize (H 1%nat (AssetBucket.mk "2024-01" 20 [photo "p01"] 1%nat)).
  simpl in H. discriminate H; done.
Qed.

(** Removing "p01" when each bucket of scenario A holds one item. *)
Lemma removeAsset_last_item_scenario :
  ∃ s', removeAsset "p01" oneItemEach = Normal s' ∧
    AssetBucket.bucketDate <$> AssetGridState.buckets (grid s') = ["2024-02"] ∧
    AssetGridState.timelineHeight (grid s') = 270 ∧
    sumBy AssetBucket.bucketHeight (AssetGridState.buckets (grid s')) = 90.
Proof.
  destruct (removeAsset_last_item_keeps_timelineHeight flatEstimate
              [CallSetInitialState 800 400 twoMonths byMonth;
               CallGetAssetsByBucket "2024-01"; Settle 0 (Resolved [photo "p01"]);
               CallGetAssetsByBucket "2024-02"; Settle 0 (Resolved [photo "q01"])]
              "p01" 0%nat (AssetBucket.mk "2024-01" 180 [photo "p01"] 0%nat))
    as (s' & Hrun & Hbs & Htl & Hex & HI2); [reflexivity..|].
  exists s'. split; [vm_compute in Hrun |- *; exact Hrun|]. rewrite Hbs, Htl.
  repeat split; reflexivity.
Defined.

(** C4, as the spec has it, fails where the timeline height was already
    ahead of the sum.  [oneBucketGone] is reached by the store's own calls;
    it has lost the bucket "2024-01" (180 pixels) and keeps "2024-02"
    (90 pixels) with its only item "q01".  Removing "q01" removes that
    bucket too: the timeline height is still 270, no bucket is left, and
    270 exceeds the sum of the remaining heights, 0, by 270 and not by the
    90 pixels of the bucket removed. *)
Lemma second_emptied_bucket_excess :
  let s' := after (removeAsset "q01" oneBucketGone) in
  AssetGridState.buckets (grid oneBucketGone)
    = [AssetBucket.mk "2024-02" 90 [photo "q01"] 1%nat] ∧
  AssetGridState.timelineHeight (grid oneBucketGone) = 270 ∧
  is_normal (removeAsset "q01" oneBucketGone) = true ∧
  AssetGridState.buckets (grid s') = [] ∧
  AssetGridState.timelineHeight (grid s') = 270 ∧
  sumBy AssetBucket.bucketHeight (AssetGridState.buckets (grid s')) = 0 ∧
  AssetGridState.timelineHeight (grid s')
    ≠ sumBy AssetBucket.bucketHeight (AssetGridState.buckets (grid s')) + 90.
Proof. repeat split; try reflexivity. vm_compute. discriminate. Qed.

(** ** The upload pipeline *)

(** C9.  [handleAssetUpload] queues the thumbnail job first, whatever the
    item; after it the transcoding job and then the metadata job for a
    video (three jobs), the EXIF job for an image (two jobs).  [save] hands
    the item to the asset repository and queues a search-index job with the
    identifier of the item. *)
Theorem upload_jobs_in_order (asset : AssetService.AssetEntity)
    (m : AssetService.Mocks) :
  (∃ following,
     AssetService.queueCalls (AssetService.handleAssetUpload asset m)
     = AssetService.queueCalls m
       ++ AssetService.mkJob AssetService.GENERATE_JPEG_THUMBNAIL
            (AssetService.OfAsset asset) :: following) ∧
  (AssetService.type asset = AssetService.VIDEO →
     AssetService.queueCalls (AssetService.handleAssetUpload asset m)
     = AssetService.queueCalls m
       ++ [AssetService.mkJob AssetService.GENERATE_JPEG_THUMBNAIL
             (AssetService.OfAsset asset);
           AssetService.mkJob AssetService.VIDEO_CONVERSION
             (AssetService.OfAsset asset);
           AssetService.mkJob AssetService.EXTRACT_VIDEO_METADATA
             (AssetService.OfAsset asset)]) ∧
  (AssetService.type asset = AssetService.IMAGE →
     AssetService.queueCalls (AssetService.handleAssetUpload asset m)
     = AssetService.queueCalls m
       ++ [AssetService.mkJob AssetService.GENERATE_JPEG_THUMBNAIL
             (AssetService.OfAsset asset);
           AssetService.mkJob AssetService.EXIF_EXTRACTION
             (AssetService.OfAsset asset)]) ∧
  AssetService.saveCalls (AssetService.handleAssetUpload asset m)
    = AssetService.saveCalls m ∧
  AssetService.queueCalls (AssetService.save asset m)
    = AssetService.queueCalls m
      ++ [AssetService.mkJob AssetService.SEARCH_INDEX_ASSET
            (AssetService.OfIds [AssetService.id asset])] ∧
  AssetService.saveCalls (AssetService.save asset m)
    = AssetService.saveCalls m ++ [asset].
Proof.
  unfold AssetService.handleAssetUpload, AssetService.save, AssetService.queue.
  split.
  { destruct (AssetService.type asset); simpl; rewrite <- ?app_assoc; eauto. }
  split; [|split].
  - intros ->. simpl. by rewrite <- !app_assoc.
  - intros ->. simpl. by rewrite <- !app_assoc.
  - by destruct (AssetService.type asset).
Qed.

(** The three tests of [asset.service.spec.ts] on the calls of the mocks. *)
Lemma upload_jobs_as_tested :
  let video := AssetService.mkAsset "v1" AssetService.VIDEO in
  let image := AssetService.mkAsset "i1" AssetService.IMAGE in
  AssetService.queueCalls (AssetService.handleAssetUpload video AssetService.fresh)
  = [AssetService.mkJob AssetService.GENERATE_JPEG_THUMBNAIL (AssetService.OfAsset video);
     AssetService.mkJob AssetService.VIDEO_CONVERSION (AssetService.OfAsset video);
     AssetService.mkJob AssetService.EXTRACT_VIDEO_METADATA (AssetService.OfAsset video)] ∧
  AssetService.queueCalls (AssetService.handleAssetUpload image AssetService.fresh)
  = [AssetService.mkJob AssetService.GENERATE_JPEG_THUMBNAIL (AssetService.OfAsset image);
     AssetService.mkJob AssetService.EXIF_EXTRACTION (AssetService.OfAsset image)] ∧
  AssetService.queueCalls (AssetService.save image AssetService.fresh)
  = [AssetService.mkJob AssetService.SEARCH_INDEX_ASSET (AssetService.OfIds ["i1"])].
Proof.
  intros video image.
  destruct (upload_jobs_in_order video AssetService.fresh) as (_ & Hvideo & _).
  destruct (upload_jobs_in_order image AssetService.fresh)
    as (_ & _ & Himage & _ & Hsave & _).
  split; [exact (Hvideo eq_refl)|]. split; [exact (Himage eq_refl) | exact Hsave].
Defined.

(** ** Requests that do not find a loaded bucket *)

Lemma issue_unloaded (bucket : string) (s : Store) :
  match List.find (hasDate bucket) (AssetGridState.buckets (grid s)) with
  | Some b => AssetBucket.assets b = []
  | None => True
  end →
  getAssetsByBucket_issue bucket s
  = (logged (callFor bucket s) s, Some (callFor bucket s)).
Proof.
  unfold getAssetsByBucket_issue, callFor, logged.
  destruct (List.find _ _) as [b|]; [|done]. by intros ->.
Qed.

Lemma resume_resolved_found (bucket : string) (data : list AssetResponseDto.t)
    (b : AssetBucket.t) (s : Store) :
  List.find (hasDate bucket) (AssetGridState.buckets (grid s)) = Some b →
  ∃ g, storeResponse bucket data (grid s) = Normal g ∧
       getAssetsByBucket_resume bucket (Resolved data) s = Normal (with_grid g s) ∧
       List.find (hasDate bucket) (AssetGridState.buckets g)
         = Some (AssetBucket.set_assets data b).
Proof.
  intros Hfind.
  destruct (storeResponse_found bucket data (grid s) b Hfind) as (g & Hg & Hfind').
  exists g. split; [done|]. split; [|done].
  unfold getAssetsByBucket_resume, update. by rewrite Hg.
Qed.

Section Requests.

Variable calc : Z → Z → Z.

Lemma step_request_unloaded (bucket : string) (s : Store) :
  match List.find (hasDate bucket) (AssetGridState.buckets (grid s)) with
  | Some b => AssetBucket.assets b = []
  | None => True
  end →
  step calc (CallGetAssetsByBucket bucket) s
  = Normal (with_pending (pending s ++ [callFor bucket s])
              (logged (callFor bucket s) s)).
Proof. intros H. cbn [step]. by rewrite (issue_unloaded bucket s H). Qed.

Lemma step_settle (n : nat) (o : FetchOutcome) (l1 l2 : list FetchCall)
    (call : FetchCall) (s : Store) :
  pending s = l1 ++ call :: l2 → n = length l1 →
  step calc (Settle n o) s
  = getAssetsByBucket_resume (fetch_bucket call) o (with_pending (l1 ++ l2) s).
Proof.
  intros Hp ->. cbn [step]. rewrite Hp, list_lookup_middle by done.
  by rewrite delete_middle.
Qed.

(** X1.  The early return of [getAssetsByBucket] looks at the items only.
    While a bucket has none, every call fetches: two calls in a row, before
    either fetch settles, call the fetch client twice with the same
    arguments and leave two suspended calls.  When both fetches resolve, the
    responses are stored one after the other and the bucket ends with the
    response that settled last. *)
Theorem request_while_loading_fetches_again (bucket : string)
    (b : AssetBucket.t) (s : Store) :
  List.find (hasDate bucket) (AssetGridState.buckets (grid s)) = Some b →
  AssetBucket.assets b = [] →
  let s2 := run calc [CallGetAssetsByBucket bucket; CallGetAssetsByBucket bucket] s in
  ∃ call,
    fetch_bucket call = bucket ∧
    fetch_signal call = Some (AssetBucket.cancelToken b) ∧
    fetchLog s2 = fetchLog s ++ [call; call] ∧
    pending s2 = pending s ++ [call; call] ∧
    grid s2 = grid s ∧
    ∀ first second,
      let n := length (pending s) in
      let s4 := run calc [Settle n (Resolved first); Settle n (Resolved second)] s2 in
      List.find (hasDate bucket) (AssetGridState.buckets (grid s4))
        = Some (AssetBucket.set_assets second b) ∧
      pending s4 = pending s.
Proof.
  intros Hfind Hempty s2.
  assert (Hs2 : s2 = with_pending (pending s ++ [callFor bucket s; callFor bucket s])
                       (logged (callFor bucket s) (logged (callFor bucket s) s))).
  { subst s2. unfold run. cbn [foldl].
    rewrite (step_request_unloaded bucket s) by (by rewrite Hfind). cbn [after].
    rewrite step_request_unloaded by (cbn [grid with_pending logged]; by rewrite Hfind).
    cbn. unfold with_pending, logged, callFor. cbn. by rewrite <- !app_assoc. }
  exists (callFor bucket s). split; [reflexivity|].
  split; [unfold callFor; cbn; by rewrite Hfind|].
  rewrite Hs2. cbn [fetchLog pending grid with_pending logged].
  split; [by rewrite <- app_assoc|]. split; [done|]. split; [done|].
  intros first second. unfold run. cbn [foldl].
  rewrite (step_settle _ (Resolved first) (pending s) [callFor bucket s] (callFor bucket s))
    by done.
  cbn [fetch_bucket callFor].
  destruct (resume_resolved_found bucket first b
              (with_pending (pending s ++ [callFor bucket s])
                 (with_pending (pending s ++ [callFor bucket s; callFor bucket s])
                    (logged (callFor bucket s) (logged (callFor bucket s) s)))))
    as (g1 & _ & Hr1 & Hfind1); [exact Hfind|].
  rewrite Hr1. cbn [after].
  rewrite (step_settle _ _ (pending s) [] (callFor bucket s)) by done.
  cbn [fetch_bucket callFor].
  match goal with
  | |- context [getAssetsByBucket_resume bucket (Resolved second) ?st] =>
      destruct (resume_resolved_found bucket second
                  (AssetBucket.set_assets first b) st)
        as (g2 & _ & Hr2 & Hfind2); [exact Hfind1|]
  end.
  rewrite Hr2. cbn. split; [exact Hfind2 | by rewrite app_nil_r].
Qed.

End Requests.

(** Two calls for "2024-01" of scenario A before anything settles. *)
Lemma request_while_loading_scenario :
  length (fetchLog (run flatEstimate
                      [CallGetAssetsByBucket "2024-01"; CallGetAssetsByBucket "2024-01"]
                      scenarioA)) = 2%nat.
Proof.
  destruct (request_while_loading_fetches_again flatEstimate "2024-01"
              (AssetBucket.mk "2024-01" 180 [] 0%nat) scenarioA eq_refl eq_refl)
    as (call & _ & _ & Hlog & _).
  rewrite Hlog. reflexivity.
Defined.

Lemma storeResponse_at (bucket : string) (data : list AssetResponseDto.t)
    (g : AssetGridState.t) (b : AssetBucket.t) :
  List.find (hasDate bucket) (AssetGridState.buckets g) = Some b →
  let i := Z.to_nat (findIndex (hasDate bucket) (AssetGridState.buckets g)) in
  let bs := <[i := AssetBucket.set_assets data b]> (AssetGridState.buckets g) in
  AssetGridState.buckets g !! i = Some b ∧
  storeResponse bucket data g
  = Normal (AssetGridState.set_assets (allAssets bs) (AssetGridState.set_buckets bs g)).
Proof.
  intros Hfind i bs. rewrite find_findIndex in Hfind. unfold storeResponse.
  rewrite Hfind. by apply at_findIndex_Some in Hfind as (_ & Hb & _).
Qed.

Lemma find_None_findIndex {A : Type} (p : A → bool) (l : list A) :
  List.find p l = None ↔ findIndex p l = -1.
Proof. by rewrite find_findIndex, at_findIndex_None, findIndex_absent. Qed.

Lemma not_in_dates (bucket : string) (bs : list AssetBucket.t) :
  bucket ∉ AssetBucket.bucketDate <$> bs ↔ findIndex (hasDate bucket) bs = -1.
Proof.
  rewrite findIndex_absent, Forall_forall. split.
  - intros Hno b Hb. apply hasDate_false. intros Heq. apply Hno.
    apply list_elem_of_fmap. by exists b.
  - intros Hall (b & Hdate & Hb)%list_elem_of_fmap.
    specialize (Hall b Hb). apply hasDate_false in Hall. congruence.
Qed.

(** X2.  A response without items does not mark the bucket: after
    [getAssetsByBucket] of a bucket without items has stored an empty
    response, the store is what it was but for the record of the call, and
    the next call for the bucket calls the fetch client again, with the same
    arguments. *)
Theorem empty_response_refetches (client : FetchCall → FetchOutcome)
    (bucket : string) (b : AssetBucket.t) (s : Store) :
  List.find (hasDate bucket) (AssetGridState.buckets (grid s)) = Some b →
  AssetBucket.assets b = [] →
  I3 (grid s) →
  client (callFor bucket s) = Resolved [] →
  getAssetsByBucket client bucket s = Normal (logged (callFor bucket s) s) ∧
  getAssetsByBucket_issue bucket (logged (callFor bucket s) s)
  = (logged (callFor bucket s) (logged (callFor bucket s) s),
     Some (callFor bucket s)).
Proof.
  intros Hfind Hempty HI3 Hclient.
  assert (Hun : match List.find (hasDate bucket) (AssetGridState.buckets (grid s)) with
                | Some b => AssetBucket.assets b = []
                | None => True
                end) by (by rewrite Hfind).
  split; [|exact (issue_unloaded bucket (logged (callFor bucket s) s) Hun)].
  unfold getAssetsByBucket. rewrite (issue_unloaded bucket s Hun), Hclient.
  unfold getAssetsByBucket_resume, update. cbn [grid logged].
  destruct (storeResponse_at bucket [] (grid s) b Hfind) as [Hb ->].
  assert (Hsame : AssetBucket.set_assets [] b = b).
  { destruct b. simpl in Hempty. by subst. }
  rewrite Hsame, (list_insert_id _ _ _ Hb), <- HI3.
  cbn [getAssetsByBucket_catch]. f_equal.
  unfold with_grid, logged. cbn. f_equal. by destruct (grid s).
Qed.

(** "2024-02" of scenario A answered with an empty list. *)
Lemma empty_response_scenario :
  getAssetsByBucket (λ _, Resolved []) "2024-02" scenarioA
  = Normal (logged (callFor "2024-02" scenarioA) scenarioA).
Proof.
  apply (empty_response_refetches (λ _, Resolved []) "2024-02"
           (AssetBucket.mk "2024-02" 90 [] 1%nat) scenarioA);
    reflexivity.
Defined.

(** X3.  A key that no bucket has does not stop [getAssetsByBucket]: the
    fetch client is called all the same, without a signal, so that this
    fetch cannot be cancelled.  Whatever comes back, the call ends normally
    and the grid is what it was; a response cannot be stored ([buckets[-1]]
    is [undefined]) and ends as a [TypeError] on the console. *)
Theorem request_for_unknown_bucket (client : FetchCall → FetchOutcome)
    (bucket : string) (s : Store) :
  bucket ∉ AssetBucket.bucketDate <$> AssetGridState.buckets (grid s) →
  fetch_signal (callFor bucket s) = None ∧
  ∃ s1, getAssetsByBucket client bucket s = Normal s1 ∧
    grid s1 = grid s ∧ aborted s1 = aborted s ∧
    fetchLog s1 = fetchLog s ++ [callFor bucket s] ∧
    (∀ data, client (callFor bucket s) = Resolved data →
       console s1 = console s
                    ++ ["Failed to get asset for bucket " +:+ bucket; "TypeError"]).
Proof.
  intros Hno. apply not_in_dates in Hno.
  assert (Hfind : List.find (hasDate bucket) (AssetGridState.buckets (grid s)) = None)
    by (by apply find_None_findIndex).
  split; [unfold callFor; cbn; by rewrite Hfind|].
  unfold getAssetsByBucket.
  rewrite (issue_unloaded bucket s) by (by rewrite Hfind).
  unfold getAssetsByBucket_resume, update, storeResponse. cbn [grid logged].
  rewrite Hno. cbn [at_index Z.ltb Z.compare].
  destruct (client (callFor bucket s)) as [data|name].
  - eexists. split; [reflexivity|]. cbn. repeat split; try done.
    intros _ _. by rewrite <- app_assoc.
  - cbn [getAssetsByBucket_catch]. destruct (bool_decide _).
    + eexists. split; [reflexivity|]. cbn. repeat split; try done.
    + eexists. split; [reflexivity|]. cbn. repeat split; try done.
Qed.

(** A request for "1999-12" in scenario A, answered with ten items. *)
Lemma request_for_unknown_bucket_scenario :
  grid (after (getAssetsByBucket (λ _, Resolved january) "1999-12" scenarioA))
  = grid scenarioA.
Proof.
  destruct (request_for_unknown_bucket (λ _, Resolved january) "1999-12" scenarioA)
    as (_ & s1 & Hrun & Hgrid & _).
  - apply not_in_dates. reflexivity.
  - rewrite Hrun. exact Hgrid.
Defined.

(** X4.  [updateBucketHeight] and [cancelBucketRequest] for a key that no
    bucket has both throw a [TypeError] on [buckets[-1]].  The first has
    written nothing by then.  The second has already aborted the controller
    it was given: that is all that is left of the call. *)
Theorem missing_bucket_throws (bucket : string) (s : Store) :
  bucket ∉ AssetBucket.bucketDate <$> AssetGridState.buckets (grid s) →
  (∀ actualBucketHeight,
     updateBucketHeight bucket actualBucketHeight s = Throw "TypeError" s) ∧
  (∀ token,
     cancelBucketRequest token bucket s = Throw "TypeError" (abort {[ token ]} s) ∧
     token ∈ aborted (after (cancelBucketRequest token bucket s))).
Proof.
  intros Hno. apply not_in_dates in Hno. split.
  - intros h. unfold updateBucketHeight, update, updateBucketHeight_fn.
    rewrite Hno. cbn. by rewrite with_grid_same.
  - intros token. unfold cancelBucketRequest. cbn [grid abort]. rewrite Hno.
    cbn. split; [done|]. set_solver.
Qed.

(** Measuring, and cancelling, "1999-12" in scenario A. *)
Lemma missing_bucket_scenario :
  updateBucketHeight "1999-12" 120 scenarioA = Throw "TypeError" scenarioA ∧
  cancelBucketRequest 1%nat "1999-12" scenarioA
  = Throw "TypeError" (abort {[ 1%nat ]} scenarioA).
Proof.
  destruct (missing_bucket_throws "1999-12" scenarioA) as [Hheight Hcancel].
  - apply not_in_dates. reflexivity.
  - split; [exact (Hheight 120) | exact (proj1 (Hcancel 1%nat))].
Defined.

(** ** Responses that arrive after the grid has been replaced *)

Lemma allAssets_app (bs1 bs2 : list AssetBucket.t) :
  allAssets (bs1 ++ bs2) = allAssets bs1 ++ allAssets bs2.
Proof. unfold allAssets, flatMap. by rewrite fmap_app, concat_app. Qed.

Lemma allAssets_nothing (bs : list AssetBucket.t) :
  Forall (λ b, AssetBucket.assets b = []) bs → allAssets bs = [].
Proof.
  induction 1 as [|b bs Hb _ IH]; [done|].
  unfold allAssets, flatMap in *. csimpl. by rewrite Hb, IH.
Qed.

Lemma allAssets_insert (bs : list AssetBucket.t) (i : nat) (b b' : AssetBucket.t) :
  bs !! i = Some b →
  allAssets (<[i:=b']> bs)
  = allAssets (take i bs) ++ AssetBucket.assets b' ++ allAssets (drop (S i) bs).
Proof.
  intros Hb. rewrite insert_take_drop by (by apply lookup_lt_Some in Hb).
  by rewrite allAssets_app.
Qed.

Section LateResponses.

Variable calc : Z → Z → Z.

(** X5.  [reset] aborts the controller of every bucket and puts a new,
    empty grid state in place; it does not touch the calls of
    [getAssetsByBucket] that are waiting.  If the fetch of one of them
    resolves afterwards all the same, the response finds no bucket: the call
    ends normally, the grid state is still the new one, and a [TypeError]
    is on the console. *)
Theorem response_after_reset (n : nat) (call : FetchCall)
    (data : list AssetResponseDto.t) (s : Store) :
  pending s !! n = Some call →
  let s1 := after (reset s) in
  is_normal (reset s) = true ∧
  (∀ b, b ∈ AssetGridState.buckets (grid s) → AssetBucket.cancelToken b ∈ aborted s1) ∧
  (∀ t, t ∈ aborted s → t ∈ aborted s1) ∧
  pending s1 = pending s ∧
  grid s1 = AssetGridState.new ∧
  ∃ s2, step calc (Settle n (Resolved data)) s1 = Normal s2 ∧
    grid s2 = AssetGridState.new ∧
    console s2 = console s
                 ++ ["Failed to get asset for bucket " +:+ fetch_bucket call;
                     "TypeError"].
Proof.
  intros Hcall s1. subst s1. cbn [reset after is_normal].
  split; [done|]. split.
  { intros b Hb. cbn. apply elem_of_union_l, elem_of_list_to_set.
    apply list_elem_of_fmap. by exists b. }
  split; [intros t Ht; cbn; by apply elem_of_union_r|].
  split; [done|]. split; [done|].
  cbn [step pending with_grid abort]. rewrite Hcall.
  eexists. split; [reflexivity|]. cbn. split; [done|]. by rewrite <- app_assoc.
Qed.

(** X6.  [setInitialState] aborts nothing and keeps the waiting calls of
    [getAssetsByBucket].  When the new layout has the key a waiting call was
    made for, and that call's fetch resolves, the response is stored in the
    new grid: the first bucket with the key gets the items, and they are the
    whole flattened list. *)
Theorem response_after_setInitialState (n : nat) (call : FetchCall)
    (data : list AssetResponseDto.t) (viewportHeight viewportWidth : Z)
    (timeBuckets : list TimeBucketResponseDto.t) (options : AssetGridOptions.t)
    (s : Store) :
  pending s !! n = Some call →
  fetch_bucket call ∈ TimeBucketResponseDto.timeBucket <$> timeBuckets →
  let s1 := after (setInitialState calc viewportHeight viewportWidth
                     timeBuckets options s) in
  aborted s1 = aborted s ∧ pending s1 = pending s ∧
  ∃ s2 b, step calc (Settle n (Resolved data)) s1 = Normal s2 ∧
    List.find (hasDate (fetch_bucket call)) (AssetGridState.buckets (grid s2))
      = Some b ∧
    AssetBucket.assets b = data ∧
    AssetGridState.assets (grid s2) = data ∧
    console s2 = console s.
Proof.
  intros Hcall Hkey s1. subst s1. cbn [setInitialState update after].
  split; [done|]. split; [done|].
  set (bs := imap (initialBucket calc viewportWidth (nextToken s)) timeBuckets).
  assert (Hempty : Forall (λ b, AssetBucket.assets b = []) bs)
    by (by apply Forall_imap).
  assert (Hdates : AssetBucket.bucketDate <$> bs
                   = TimeBucketResponseDto.timeBucket <$> timeBuckets)
    by (by apply fmap_imap_const).
  rewrite <- Hdates in Hkey. apply list_elem_of_fmap in Hkey as (b0 & Hb0 & Hin).
  destruct (at_findIndex_is_Some (hasDate (fetch_bucket call)) bs b0 Hin) as [b Hb].
  { by apply hasDate_true. }
  rewrite <- find_findIndex in Hb.
  cbn [step pending with_grid]. rewrite Hcall.
  match goal with
  | |- context [getAssetsByBucket_resume _ _ ?st] => set (s1 := st)
  end.
  assert (Hfind : List.find (hasDate (fetch_bucket call))
                    (AssetGridState.buckets (grid s1)) = Some b) by exact Hb.
  destruct (resume_resolved_found _ data b s1 Hfind) as (g & Hg & Hrun & Hfind').
  destruct (storeResponse_at _ data (grid s1) b Hfind) as [Hlook Hg'].
  rewrite Hg in Hg'. injection Hg' as ->.
  exists (with_grid
            (AssetGridState.set_assets
               (allAssets (<[Z.to_nat (findIndex (hasDate (fetch_bucket call))
                                        (AssetGridState.buckets (grid s1)))
                             := AssetBucket.set_assets data b]>
                             (AssetGridState.buckets (grid s1))))
               (AssetGridState.set_buckets
                  (<[Z.to_nat (findIndex (hasDate (fetch_bucket call))
                                 (AssetGridState.buckets (grid s1)))
                     := AssetBucket.set_assets data b]>
                     (AssetGridState.buckets (grid s1))) (grid s1))) s1),
         (AssetBucket.set_assets data b).
  split; [exact Hrun|]. split; [exact Hfind'|]. split; [done|]. split; [|done].
  cbn [grid with_grid AssetGridState.assets AssetGridState.set_assets].
  rewrite (allAssets_insert _ _ b) by exact Hlook.
  rewrite !allAssets_nothing, app_nil_r; [done|..].
  - apply Forall_drop. exact Hempty.
  - apply Forall_take. exact Hempty.
Qed.

End LateResponses.

(** Scenario E followed by [reset], then the old fetch resolves. *)
Lemma response_after_reset_scenario :
  grid (after (step flatEstimate (Settle 0 (Resolved january))
                 (after (reset scenarioE)))) = AssetGridState.new.
Proof.
  destruct (response_after_reset flatEstimate 0
              (mkFetchCall "MONTH" "2024-01" byMonth (Some 0%nat)) january
              scenarioE eq_refl)
    as (_ & _ & _ & _ & _ & s2 & Hrun & Hgrid & _).
  rewrite Hrun. exact Hgrid.
Defined.

(** Scenario E followed by a second [setInitialState] with the same layout,
    then the old fetch resolves. *)
Lemma response_after_setInitialState_scenario :
  AssetGridState.assets
    (grid (after (step flatEstimate (Settle 0 (Resolved january))
                    (after (setInitialState flatEstimate 800 400 twoMonths byMonth
                              scenarioE)))))
  = january.
Proof.
  destruct (response_after_setInitialState flatEstimate 0
              (mkFetchCall "MONTH" "2024-01" byMonth (Some 0%nat)) january
              800 400 twoMonths byMonth scenarioE eq_refl)
    as (_ & _ & s2 & b & Hrun & _ & _ & Hassets & _).
  - apply list_elem_of_here.
  - rewrite Hrun. exact Hassets.
Defined.

(** ** The controllers of the buckets *)

Lemma controllersLive_sublist (s s' : Store) :
  controllers s' `sublist_of` controllers s →
  aborted s' = aborted s → nextToken s' = nextToken s →
  controllersLive s → controllersLive s'.
Proof.
  intros Hsub Ha Hn (Hnd & Hlive & Hold). unfold controllersLive.
  rewrite Ha, Hn. split; [by eapply sublist_NoDup|]. split; [|done].
  intros t Ht. apply Hlive. by apply (sublist_subseteq _ _ Hsub).
Qed.

Lemma tokens_insert (bs : list AssetBucket.t) (i : nat) (b b' : AssetBucket.t) :
  bs !! i = Some b → AssetBucket.cancelToken b' = AssetBucket.cancelToken b →
  AssetBucket.cancelToken <$> <[i:=b']> bs = AssetBucket.cancelToken <$> bs.
Proof.
  intros Hb Heq. rewrite list_fmap_insert, Heq. apply list_insert_id.
  by rewrite list_lookup_fmap, Hb.
Qed.

Lemma tokens_splice1 (bs : list AssetBucket.t) (k : Z) :
  AssetBucket.cancelToken <$> splice1 bs k
  `sublist_of` AssetBucket.cancelToken <$> bs.
Proof. unfold splice1. rewrite list_fmap_delete. apply sublist_delete. Qed.

Lemma tokens_storeResponse bucket data g :
  AssetBucket.cancelToken <$> AssetGridState.buckets (after (storeResponse bucket data g))
  = AssetBucket.cancelToken <$> AssetGridState.buckets g.
Proof.
  unfold storeResponse. destruct (at_index _ _) as [b|] eqn:E; [|done].
  apply at_findIndex_Some in E as (_ & Hb & _). cbn. by apply (tokens_insert _ _ b).
Qed.

Lemma tokens_removeAsset assetId g :
  AssetBucket.cancelToken <$> AssetGridState.buckets (after (removeAsset_fn assetId g))
  `sublist_of` AssetBucket.cancelToken <$> AssetGridState.buckets g.
Proof.
  unfold removeAsset_fn. destruct (at_index _ _) as [b|] eqn:E; [|done].
  apply at_findIndex_Some in E as (_ & Hb & _). cbn [after AssetGridState.buckets
    AssetGridState.set_assets AssetGridState.set_buckets].
  destruct (_ =? _)%nat.
  - unfold _removeBucket. cbn [AssetGridState.buckets
      AssetGridState.set_assets AssetGridState.set_buckets].
    etrans; [apply tokens_splice1|]. by rewrite (tokens_insert _ _ b).
  - cbn. by rewrite (tokens_insert _ _ b).
Qed.

Lemma tokens_updateBucketHeight bucket h g :
  AssetBucket.cancelToken
  <$> AssetGridState.buckets (after (updateBucketHeight_fn bucket h g))
  = AssetBucket.cancelToken <$> AssetGridState.buckets g.
Proof.
  unfold updateBucketHeight_fn. destruct (at_index _ _) as [b|] eqn:E; [|done].
  apply at_findIndex_Some in E as (_ & Hb & _). cbn. by apply (tokens_insert _ _ b).
Qed.

Lemma tokens_updateAsset assetId v g :
  AssetBucket.cancelToken
  <$> AssetGridState.buckets (after (updateAsset_fn assetId v g))
  = AssetBucket.cancelToken <$> AssetGridState.buckets g.
Proof.
  unfold updateAsset_fn. destruct (at_index _ _) as [b|] eqn:E; [|done].
  destruct (at_index (AssetBucket.assets b) _); [|done].
  apply at_findIndex_Some in E as (_ & Hb & _). cbn. by apply (tokens_insert _ _ b).
Qed.

Lemma update_after (fn : AssetGridState.t → Completion AssetGridState.t) (s : Store) :
  after (update fn s) = with_grid (after (fn (grid s))) s.
Proof. unfold update. by destruct (fn (grid s)). Qed.

Lemma resume_after (bucket : string) (o : FetchOutcome) (s : Store) :
  controllers (after (getAssetsByBucket_resume bucket o s)) = controllers s ∧
  aborted (after (getAssetsByBucket_resume bucket o s)) = aborted s ∧
  nextToken (after (getAssetsByBucket_resume bucket o s)) = nextToken s.
Proof.
  unfold getAssetsByBucket_resume, controllers. destruct o as [data|name].
  - pose proof (tokens_storeResponse bucket data (grid s)) as Ht.
    unfold update. destruct (storeResponse bucket data (grid s)) as [g|e g]; cbn in *;
      [done|]. by destruct (bool_decide _).
  - cbn. by destruct (bool_decide _).
Qed.

Lemma NoDup_insert_fresh {A : Type} (l : list A) (i : nat) (x : A) :
  NoDup l → x ∉ l → NoDup (<[i:=x]> l).
Proof.
  intros Hnd Hx. apply NoDup_alt. intros j1 j2 y H1 H2.
  apply list_lookup_insert_Some in H1 as [(-> & <- & _)|(Hne1 & H1)];
    apply list_lookup_insert_Some in H2 as [(Heq & Hy & _)|(Hne2 & H2)].
  - done.
  - exfalso. apply Hx. by apply list_elem_of_lookup_2 in H2.
  - subst. exfalso. apply Hx. by apply list_elem_of_lookup_2 in H1.
  - by apply (NoDup_lookup l j1 j2 y).
Qed.

Lemma elem_of_insert_other {A : Type} (l : list A) (i : nat) (x y z : A) :
  NoDup l → l !! i = Some x → y ∈ <[i:=z]> l → y = z ∨ (y ∈ l ∧ y ≠ x).
Proof.
  intros Hnd Hx (j & Hj)%list_elem_of_lookup_1.
  apply list_lookup_insert_Some in Hj as [(-> & <- & _)|(Hne & Hj)]; [by left|].
  right. split; [by apply list_elem_of_lookup_2 in Hj|].
  intros ->. apply Hne. by apply (NoDup_lookup l i j x).
Qed.

Lemma tokens_initial (calc : Z → Z → Z) (vw : Z) (first : Token)
    (tbs : list TimeBucketResponseDto.t) :
  AssetBucket.cancelToken <$> imap (initialBucket calc vw first) tbs
  = seq first (length tbs).
Proof.
  apply list_eq. intros i. rewrite list_lookup_fmap, list_lookup_imap.
  destruct (tbs !! i) as [tb|] eqn:E; cbn.
  - by rewrite lookup_seq_lt by (by apply lookup_lt_Some in E).
  - by rewrite lookup_seq_ge by (by apply lookup_ge_None in E).
Qed.

Section Controllers.

Variable calc : Z → Z → Z.

Lemma controllersLive_step (e : Event) (s : Store) :
  controllersLive s → ownController e s = true →
  controllersLive (after (step calc e s)).
Proof.
  intros Hlive Hown. destruct e; cbn [step].
  - destruct Hlive as (Hnd & Hl & Hold). cbn. split; [apply NoDup_nil_2|].
    split; [intros t Ht; by apply not_elem_of_nil in Ht|].
    intros t [Ht|Ht]%elem_of_union; [|by apply Hold].
    apply elem_of_list_to_set in Ht. by apply Hl.
  - destruct Hlive as (Hnd & Hl & Hold). unfold controllersLive, controllers. cbn.
    rewrite tokens_initial. split; [apply NoDup_seq|]. split.
    + intros t [Hge Hlt]%elem_of_seq. split; [lia|].
      intros Ht. apply Hold in Ht. lia.
    + intros t Ht. apply Hold in Ht. lia.
  - apply (controllersLive_sublist s); [| | |done];
      unfold getAssetsByBucket_issue, controllers;
      destruct (List.find _ _) as [b|]; try destruct (_ <? _)%nat; done.
  - destruct (pending s !! n) as [call|]; [|done].
    destruct (resume_after (fetch_bucket call) o (with_pending (delete n (pending s)) s))
      as (Hc & Ha & Hn).
    apply (controllersLive_sublist s); [by rewrite Hc| done | done | done].
  - unfold removeAsset. rewrite update_after.
    apply (controllersLive_sublist s); [|done..]. apply tokens_removeAsset.
  - unfold updateBucketHeight. rewrite update_after.
    apply (controllersLive_sublist s); [|done..].
    unfold controllers. cbn. by rewrite tokens_updateBucketHeight.
  - cbn in Hown. destruct (List.find _ _) as [b|] eqn:Hfind; [|done].
    apply bool_decide_eq_true in Hown. subst token.
    rewrite find_findIndex in Hfind. unfold cancelBucketRequest.
    cbn [grid abort]. rewrite Hfind.
    apply at_findIndex_Some in Hfind as (_ & Hb & _).
    destruct Hlive as (Hnd & Hl & Hold). unfold controllersLive, controllers. cbn.
    set (i := Z.to_nat (findIndex (hasDate bucketDate) (AssetGridState.buckets (grid s)))) in *.
    assert (Htok : (AssetBucket.cancelToken <$> AssetGridState.buckets (grid s)) !! i
                   = Some (AssetBucket.cancelToken b))
      by (by rewrite list_lookup_fmap, Hb).
    assert (Hfresh : nextToken s ∉ AssetBucket.cancelToken <$> AssetGridState.buckets (grid s)).
    { intros Hin. apply Hl in Hin. lia. }
    assert (Hmine : (AssetBucket.cancelToken b < nextToken s)%nat).
    { apply Hl. by apply list_elem_of_lookup_2 in Htok. }
    rewrite list_fmap_insert. cbn. split; [by apply NoDup_insert_fresh|]. split.
    + intros t Ht.
      destruct (elem_of_insert_other _ i (AssetBucket.cancelToken b) t (nextToken s)
                  Hnd Htok Ht) as [->|[Ht' Hne]].
      * split; [lia|]. intros [Hin|Hin]%elem_of_union.
        -- apply elem_of_singleton in Hin. lia.
        -- apply Hold in Hin. lia.
      * destruct (Hl t Ht') as [Hlt Hna]. split; [lia|].
        intros [Hin|Hin]%elem_of_union; [|done].
        by apply elem_of_singleton in Hin.
    + intros t [Hin|Hin]%elem_of_union.
      * apply elem_of_singleton in Hin. lia.
      * apply Hold in Hin. lia.
  - unfold updateAsset. rewrite update_after.
    apply (controllersLive_sublist s); [|done..].
    unfold controllers. cbn. by rewrite tokens_updateAsset.
Qed.

Lemma controllersLive_run (events : list Event) (s : Store) :
  controllersLive s → disciplined calc events s = true →
  controllersLive (run calc events s).
Proof.
  revert s. induction events as [|e events IH]; intros s Hlive Hd; [done|].
  cbn in Hd. apply andb_prop in Hd as [Hown Hd].
  cbn. apply IH; [by apply controllersLive_step|done].
Qed.

(** X7.  As long as every call of [cancelBucketRequest] is given the
    controller of the bucket it names, no bucket ever holds an aborted
    controller and no two buckets share one, after any sequence of calls
    and settlements.  So whenever [getAssetsByBucket] calls the fetch client
    for a bucket, the signal it hands over has not been aborted. *)
Theorem controllers_stay_live (events : list Event) :
  disciplined calc events initial_store = true →
  let s := run calc events initial_store in
  controllersLive s ∧
  ∀ bucket call token,
    (getAssetsByBucket_issue bucket s).2 = Some call →
    fetch_signal call = Some token →
    token ∉ aborted s.
Proof.
  intros Hd s.
  assert (Hlive : controllersLive s).
  { apply controllersLive_run; [|done]. unfold controllersLive, controllers. cbn.
    split; [apply NoDup_nil_2|]. split; intros t Ht; [by apply not_elem_of_nil in Ht|].
    by apply not_elem_of_empty in Ht. }
  split; [exact Hlive|]. intros bucket call token Hissue Hsignal.
  unfold getAssetsByBucket_issue in Hissue.
  destruct (List.find (hasDate bucket) (AssetGridState.buckets (grid s))) as [b|] eqn:Hfind.
  - destruct (_ <? _)%nat; [done|]. cbn in Hissue. injection Hissue as <-.
    cbn in Hsignal. injection Hsignal as <-.
    apply find_some in Hfind as [Hin _]. apply list_elem_of_In in Hin.
    apply Hlive. unfold controllers. apply list_elem_of_fmap. by exists b.
  - cbn in Hissue. injection Hissue as <-. done.
Qed.

End Controllers.

(** Scenario E, whose [cancelBucketRequest] is given the controller of
    "2024-01": the bucket has the new controller 2, which is not aborted. *)
Lemma controllers_live_scenario_E : controllersLive scenarioE.
Proof.
  apply (controllers_stay_live flatEstimate
           [CallSetInitialState 800 400 twoMonths byMonth;
            CallGetAssetsByBucket "2024-01";
            CallCancelBucketRequest 0%nat "2024-01"]).
  reflexivity.
Defined.

(** ** The timeline height and the sum of the bucket heights *)

Lemma heights_insert (bs : list AssetBucket.t) (i : nat) (b b' : AssetBucket.t) :
  bs !! i = Some b → AssetBucket.bucketHeight b' = AssetBucket.bucketHeight b →
  sumBy AssetBucket.bucketHeight (<[i:=b']> bs) = sumBy AssetBucket.bucketHeight bs.
Proof. intros Hb Heq. rewrite (sumBy_insert _ _ _ b) by done. lia. Qed.

Lemma length_splice1 {A : Type} (l : list A) (k : Z) :
  -1 ≤ k < Z.of_nat (length l) → l ≠ [] →
  length (splice1 l k) = (length l - 1)%nat.
Proof.
  intros Hk Hne. unfold splice1.
  assert (0 < length l)%nat by (destruct l; [done | simpl; lia]).
  apply length_delete, lookup_lt_is_Some. ltb_cases.
Qed.

Section AlongExecutions.

Variable calc : Z → Z → Z.

(** X8.  Every call and every settlement keeps the timeline height equal to
    the sum of the bucket heights (I2), with one exception: a [removeAsset]
    that makes the bucket list shorter.  [reset] and [setInitialState] set
    the two equal whatever they were. *)
Theorem timeline_height_tracks_sum (e : Event) (s : Store) :
  I2 (grid s) →
  (∀ assetId, e ≠ CallRemoveAsset assetId) ∨
  length (AssetGridState.buckets (grid (after (step calc e s))))
  = length (AssetGridState.buckets (grid s)) →
  I2 (grid (after (step calc e s))).
Proof.
  intros HI2 Hcond. unfold I2 in *. destruct e; cbn [step] in *.
  - reflexivity.
  - reflexivity.
  - pose proof (grid_issue bucket s) as Hg.
    destruct (getAssetsByBucket_issue bucket s) as [s1 [call|]]; cbn in *;
      by rewrite Hg.
  - destruct (pending s !! n) as [call|]; [|done].
    unfold getAssetsByBucket_resume, update, storeResponse.
    destruct o as [data|name]; cbn.
    + destruct (at_index _ _) as [b|] eqn:E; cbn; [|by destruct (bool_decide _)].
      apply at_findIndex_Some in E as (_ & Hb & _).
      by rewrite (heights_insert _ _ b).
    + by destruct (bool_decide _).
  - unfold removeAsset, removeAsset_fn, update in *.
    destruct (at_index _ _) as [b|] eqn:E; cbn in *; [|done].
    apply at_findIndex_Some in E as (_ & Hb & _).
    destruct (_ =? _)%nat.
    + exfalso. destruct Hcond as [Hcond|Hlen]; [by apply (Hcond assetId)|].
      unfold _removeBucket in Hlen. cbn in Hlen.
      rewrite length_splice1, length_insert in Hlen.
      * apply lookup_lt_Some in Hb. lia.
      * apply findIndex_range.
      * intros Hnil. apply (f_equal length) in Hnil.
        rewrite length_insert in Hnil. apply lookup_lt_Some in Hb. cbn in Hnil. lia.
    + cbn. by rewrite (heights_insert _ _ b).
  - unfold updateBucketHeight, updateBucketHeight_fn, update.
    destruct (at_index _ _) as [b|] eqn:E; cbn; [|done].
    apply at_findIndex_Some in E as (_ & Hb & _).
    rewrite (sumBy_insert _ _ _ b) by done. cbn.
    destruct (Z.geb_spec actualBucketHeight (AssetBucket.bucketHeight b)); lia.
  - unfold cancelBucketRequest. cbn.
    destruct (at_index _ _) as [b|] eqn:E; cbn; [|done].
    apply at_findIndex_Some in E as (_ & Hb & _).
    by rewrite (heights_insert _ _ b).
  - unfold updateAsset, updateAsset_fn, update.
    destruct (at_index _ _) as [b|] eqn:E; cbn; [|done].
    destruct (at_index (AssetBucket.assets b) _); cbn; [|done].
    apply at_findIndex_Some in E as (_ & Hb & _).
    by rewrite (heights_insert _ _ b).
Qed.

(** X9.  In every state the store reaches, a bucket that has items is the
    bucket [getAssetsByBucket] finds under its key, so a call for the key of
    any loaded bucket returns at once, with the store as it was, even when
    the layout named the key twice. *)
Theorem loaded_bucket_is_found (events : list Event) (i : nat) (b : AssetBucket.t) :
  let s := run calc events initial_store in
  AssetGridState.buckets (grid s) !! i = Some b →
  AssetBucket.assets b ≠ [] →
  List.find (hasDate (AssetBucket.bucketDate b)) (AssetGridState.buckets (grid s))
    = Some b ∧
  getAssetsByBucket_issue (AssetBucket.bucketDate b) s = (s, None).
Proof.
  intros s Hb Hne.
  assert (Hfirst : findIndex (hasDate (AssetBucket.bucketDate b))
                     (AssetGridState.buckets (grid s)) = Z.of_nat i).
  { apply (loadedFirst_run calc events initial_store);
      [by apply loadedFirst_empty | done..]. }
  assert (Hfind : List.find (hasDate (AssetBucket.bucketDate b))
                    (AssetGridState.buckets (grid s)) = Some b).
  { rewrite find_findIndex, Hfirst. apply at_index_Some.
    rewrite Nat2Z.id. split; [lia|done]. }
  split; [exact Hfind|]. unfold getAssetsByBucket_issue. rewrite Hfind.
  by destruct (AssetBucket.assets b).
Qed.

End AlongExecutions.

(** Loading "2024-01" of scenario A keeps I2. *)
Lemma timeline_height_scenario_B : I2 (grid scenarioB).
Proof.
  apply (timeline_height_tracks_sum flatEstimate (Settle 0 (Resolved january))
           (run flatEstimate [CallGetAssetsByBucket "2024-01"] scenarioA)).
  - reflexivity.
  - left. discriminate.
Defined.

(** The same key twice in the layout: once the first bucket is loaded, it is
    the one found. *)
Lemma loaded_bucket_scenario :
  getAssetsByBucket_issue "2024-01"
    (run flatEstimate
       [CallSetInitialState 800 400 sameMonthTwice byMonth;
        CallGetAssetsByBucket "2024-01"; Settle 0 (Resolved january)]
       initial_store)
  = (run flatEstimate
       [CallSetInitialState 800 400 sameMonthTwice byMonth;
        CallGetAssetsByBucket "2024-01"; Settle 0 (Resolved january)]
       initial_store, None).
Proof.
  apply (loaded_bucket_is_found flatEstimate
           [CallSetInitialState 800 400 sameMonthTwice byMonth;
            CallGetAssetsByBucket "2024-01"; Settle 0 (Resolved january)]
           0%nat (AssetBucket.mk "2024-01" 180 january 0%nat)).
  - reflexivity.
  - discriminate.
Defined.

(** X10.  Of two measurements of the same bucket the last one counts:
    [updateBucketHeight] with a first height and then with a second leaves
    the store that [updateBucketHeight] with the second alone leaves. *)
Theorem last_measurement_wins (bucket : string) (first second : Z) (s : Store) :
  bucket ∈ AssetBucket.bucketDate <$> AssetGridState.buckets (grid s) →
  is_normal (updateBucketHeight bucket first s) = true ∧
  updateBucketHeight bucket second (after (updateBucketHeight bucket first s))
  = updateBucketHeight bucket second s.
Proof.
  intros Hin. apply list_elem_of_fmap in Hin as (b0 & Hdate & Hb0).
  destruct (at_findIndex_is_Some (hasDate bucket) _ b0 Hb0) as [b Hb].
  { by apply hasDate_true. }
  pose proof Hb as Hb'. apply at_findIndex_Some in Hb' as (Hge & Hlook & _).
  unfold updateBucketHeight, update, updateBucketHeight_fn. rewrite Hb.
  split; [done|]. cbn [after grid with_grid AssetGridState.buckets
    AssetGridState.timelineHeight AssetGridState.set_buckets
    AssetGridState.set_timelineHeight].
  rewrite (findIndex_same_dates bucket (AssetGridState.buckets (grid s)) (<[_:=_]> _))
    by (by apply (dates_insert _ _ b)).
  assert (Hb1 : at_index
                  (<[Z.to_nat (findIndex (hasDate bucket) (AssetGridState.buckets (grid s)))
                     := AssetBucket.set_bucketHeight first b]>
                     (AssetGridState.buckets (grid s)))
                  (findIndex (hasDate bucket) (AssetGridState.buckets (grid s)))
                = Some (AssetBucket.set_bucketHeight first b)).
  { apply at_index_Some. split; [done|].
    apply list_lookup_insert_eq. by apply lookup_lt_Some in Hlook. }
  rewrite Hb1. cbn. rewrite list_insert_insert_eq. f_equal.
  unfold with_grid. cbn. f_equal. unfold AssetGridState.set_buckets. cbn. f_equal.
  destruct (Z.geb_spec first (AssetBucket.bucketHeight b));
    destruct (Z.geb_spec second first);
    destruct (Z.geb_spec second (AssetBucket.bucketHeight b)); lia.
Qed.

(** "2024-02" of scenario A measured at 120 and then at 100. *)
Lemma last_measurement_scenario :
  updateBucketHeight "2024-02" 100 (after (updateBucketHeight "2024-02" 120 scenarioA))
  = updateBucketHeight "2024-02" 100 scenarioA.
Proof.
  apply (last_measurement_wins "2024-02" 120 100 scenarioA).
  apply list_elem_of_In. right. left. reflexivity.
Defined.

(** ** When the grid reports itself empty *)

Section GridEmpty.

Variable calc : Z → Z → Z.

(** X11.  [assetGridEmpty] is false after [reset] (the state is not
    initialised), and after [setInitialState] it is true exactly when the
    layout has no entry: buckets that merely have no items yet do not make
    the grid empty.  It becomes true when [removeAsset] takes the only item
    of the only bucket: the bucket goes and the flattened list is empty,
    while the timeline height stays what it was. *)
Theorem grid_reports_empty (s : Store) :
  assetGridEmpty (grid (after (reset s))) = false ∧
  (∀ viewportHeight viewportWidth timeBuckets options,
     assetGridEmpty
       (grid (after (setInitialState calc viewportHeight viewportWidth
                       timeBuckets options s))) = true
     ↔ timeBuckets = []) ∧
  (∀ a b,
     AssetGridState.initialized (grid s) = true →
     AssetGridState.buckets (grid s) = [b] →
     AssetBucket.assets b = [a] →
     assetGridEmpty (grid s) = false ∧
     ∃ s', removeAsset (AssetResponseDto.id a) s = Normal s' ∧
       assetGridEmpty (grid s') = true ∧
       AssetGridState.assets (grid s') = [] ∧
       AssetGridState.timelineHeight (grid s')
       = AssetGridState.timelineHeight (grid s)).
Proof.
  split; [reflexivity|]. split.
  - intros vh vw tbs opts. unfold assetGridEmpty. cbn.
    rewrite length_imap. destruct tbs; cbn; split; done.
  - intros a b Hinit Hbs Ha. unfold assetGridEmpty at 1. rewrite Hinit, Hbs.
    split; [done|].
    assert (Hid : hasId (AssetResponseDto.id a) a = true)
      by (by apply bool_decide_eq_true).
    assert (Hdate : hasDate (AssetBucket.bucketDate b) b = true)
      by (by apply hasDate_true).
    assert (Hfn : removeAsset_fn (AssetResponseDto.id a) (grid s)
                  = Normal (AssetGridState.set_assets []
                              (AssetGridState.set_buckets [] (grid s)))).
    { rewrite (removeAsset_fn_found (AssetResponseDto.id a) (grid s) 0%nat b).
      - rewrite Ha. cbn [findIndex]. rewrite Hid. by rewrite Hbs.
      - rewrite Hbs. cbn [findIndex]. unfold holdsAsset. rewrite Ha. cbn [existsb].
        by rewrite Hid.
      - by rewrite Hbs.
      - rewrite Hbs. cbn [findIndex]. by rewrite Hdate. }
    unfold removeAsset, update. rewrite Hfn.
    eexists. split; [reflexivity|]. unfold assetGridEmpty. cbn. by rewrite Hinit.
Qed.

End GridEmpty.

(** The last item of a grid of one bucket. *)
Lemma grid_reports_empty_scenario :
  let s := run flatEstimate
             [CallSetInitialState 800 400 [TimeBucketResponseDto.mk "2024-01" 1] byMonth;
              CallGetAssetsByBucket "2024-01"; Settle 0 (Resolved [photo "p01"])]
             initial_store in
  assetGridEmpty (grid s) = false ∧
  assetGridEmpty (grid (after (removeAsset "p01" s))) = true.
Proof.
  intros s.
  destruct (proj2 (proj2 (grid_reports_empty flatEstimate s))
              (photo "p01") (AssetBucket.mk "2024-01" 18 [photo "p01"] 0%nat)
              eq_refl eq_refl eq_refl)
    as (Hbefore & s' & Hrun & Hafter & _).
  split; [exact Hbefore|]. change (AssetResponseDto.id (photo "p01")) with "p01" in Hrun.
  rewrite Hrun. exact Hafter.
Defined.
